(** * Sentiment classification service: the request handlers of [app.py]

    A shallow embedding of the two FastAPI handlers [analyze_sentiment] and
    [batch_analyze_sentiment] of [src/app.py], with the Python values they
    handle:

    - a Python [str] is a list of Unicode code points;
    - a Python [float] is a binary64 number, the kernel's primitive [float];
    - the module-level [sentiment_pipeline] is [None] or a callable whose
      answers may depend on a state of its own (the world);
    - a handler runs in a monad that threads the world, collects the events
      it emits (adapter calls, [logger.error] lines) and may raise. *)

From Stdlib Require Import ZArith NArith List String Ascii Bool Floats Lia.
Import ListNotations.

Set Warnings "-inexact-float".
Set Implicit Arguments.

(* ================================================================= *)
(** ** Python strings *)

(** A character is a Unicode code point; a [str] is a sequence of them, so
    that [len] and slices count characters, not bytes. *)
Definition char := N.
Definition str := list char.

(** A literal of the source, read character by character. *)
Definition py (s : string) : str :=
  List.map N_of_ascii (list_ascii_of_string s).

Definition str_eq_dec : forall a b : str, {a = b} + {a <> b} :=
  list_eq_dec N.eq_dec.

(** [c.isspace()]: the code points CPython's [str.strip()] removes. *)
Definition isspace (c : char) : bool :=
  (((0x09 <=? c) && (c <=? 0x0D)) || ((0x1C <=? c) && (c <=? 0x20))
  || (c =? 0x85) || (c =? 0xA0) || (c =? 0x1680)
  || ((0x2000 <=? c) && (c <=? 0x200A))
  || (c =? 0x2028) || (c =? 0x2029) || (c =? 0x202F)
  || (c =? 0x205F) || (c =? 0x3000))%N.

Fixpoint lstrip (s : str) : str :=
  match s with
  | [] => []
  | c :: s' => if isspace c then lstrip s' else s
  end.

Definition rstrip (s : str) : str := rev (lstrip (rev s)).

(** [s.strip()] *)
Definition strip (s : str) : str := rstrip (lstrip s).

(** Truth value of a sequence: empty is false. *)
Definition truthy {A} (l : list A) : bool :=
  match l with [] => false | _ :: _ => true end.

(** [s[:n]] *)
Definition slice_to {A} (n : nat) (s : list A) : list A := firstn n s.

(** The spec's words for a rejected text: empty, or whitespace only. *)
Definition whitespace_only (s : str) : bool := forallb isspace s.

(* ================================================================= *)
(** ** Python floats and [round] *)

Open Scope float_scope.

(** Nearest integer to [num / den] ([den > 0]), ties to the even one. *)
Definition round_half_even (num den : Z) : Z :=
  let q := (num / den)%Z in
  let r := (num mod den)%Z in
  match (2 * r ?= den)%Z with
  | Lt => q
  | Gt => (q + 1)%Z
  | Eq => if Z.even q then q else (q + 1)%Z
  end.

(** The integer nearest [m * 2^e * 10^ndigits], exactly computed. *)
Definition scaled_digits (m : positive) (e : Z) (ndigits : nat) : Z :=
  let p := (10 ^ Z.of_nat ndigits)%Z in
  if (0 <=? e)%Z then (Z.pos m * 2 ^ e * p)%Z
  else round_half_even (Z.pos m * p) (2 ^ (- e)).

(** The float nearest the decimal [(-1)^s * n / 10^ndigits] (what [strtod]
    returns for it): a correctly rounded division of two integers. *)
Definition float_of_decimal (s : bool) (n : Z) (ndigits : nat) : float :=
  match n with
  | Z.pos p =>
      SF2Prim (SFdiv prec emax (S754_finite s p 0)
                 (S754_finite false (Z.to_pos (10 ^ Z.of_nat ndigits)) 0))
  | _ => SF2Prim (S754_zero s)
  end.

(** [round(x, ndigits)] for a float [x] and [ndigits >= 0]: the exact value
    of [x] is rounded to [ndigits] decimals (ties to even) and the result is
    read back as a float; zeros, infinities and nan come back unchanged. *)
Definition round (x : float) (ndigits : nat) : float :=
  match Prim2SF x with
  | S754_finite s m e => float_of_decimal s (scaled_digits m e ndigits) ndigits
  | _ => x
  end.

(** A float that is neither nan nor an infinity. *)
Definition finite (x : float) : bool :=
  match Prim2SF x with
  | S754_zero _ | S754_finite _ _ _ => true
  | _ => false
  end.

(* ================================================================= *)
(** ** Values, requests and responses *)

(** [Union[str, float]], the values of the dictionaries the handlers build. *)
Inductive value :=
| VStr (s : str)
| VFloat (f : float).

(** A dictionary with string keys, in insertion order. *)
Definition dict := list (str * value).

Definition keys (d : dict) : list str := List.map fst d.

Fixpoint get (d : dict) (k : str) : option value :=
  match d with
  | [] => None
  | (k', v) :: d' => if str_eq_dec k k' then Some v else get d' k
  end.

Module TextInput.
Record t := mk { text : str }.
End TextInput.

Module BatchTextInput.
Record t := mk { texts : list str }.
End BatchTextInput.

Module SentimentOutput.
Record t := mk {
  text : str;
  sentiment : str;
  confidence : float;
  all_scores : list dict
}.
End SentimentOutput.

(** One element of the list the pipeline returns:
    [{'label': ..., 'score': ...}]. *)
Record Prediction := { label : str; score : float }.

(** [HTTPException(status_code=..., detail=...)] *)
Record HTTPException := { status_code : Z; detail : str }.

(** The spec's names for the three failures. *)
Definition ModelUnavailable : HTTPException :=
  {| status_code := 503; detail := py "Model not loaded" |}.
Definition EmptyInput : HTTPException :=
  {| status_code := 400; detail := py "Text cannot be empty" |}.
Definition EmptyBatch : HTTPException :=
  {| status_code := 400; detail := py "Texts list cannot be empty" |}.
Definition InferenceError (msg : str) : HTTPException :=
  {| status_code := 500; detail := msg |}.

(* ================================================================= *)
(** ** The handler monad *)

(** What a handler does that the outside can see: a call of the pipeline
    (with its argument and whether it raised), and a [logger.error] line. *)
Inductive Event :=
| AdapterCall (arg : str) (raised : option str)
| LogError (msg : str).

Definition adapter_args (tr : list Event) : list str :=
  flat_map (fun ev => match ev with
                      | AdapterCall a _ => [a]
                      | LogError _ => []
                      end) tr.

Section Handlers.

(** The state the pipeline's answers may depend on (model weights, caches,
    random seeds): opaque to the service. *)
Variable World : Type.

(** The result of running a computation: the events it emitted, in order,
    its outcome ([inl] an exception, [inr] a value) and the world after. *)
Record Run (E A : Type) := mkRun {
  events : list Event;
  outcome : E + A;
  world : World
}.

Definition M (E A : Type) := World -> Run E A.

Definition ret {E A} (a : A) : M E A :=
  fun w => mkRun [] (inr a) w.

Definition raise {E A} (e : E) : M E A :=
  fun w => mkRun [] (inl e) w.

Definition bind {E A B} (m : M E A) (k : A -> M E B) : M E B :=
  fun w =>
    let r := m w in
    match outcome r with
    | inl e => mkRun (events r) (inl e) (world r)
    | inr a =>
        let r' := k a (world r) in
        mkRun (events r ++ events r') (outcome r') (world r')
    end.

(** [try: m except Exception as e: h e] *)
Definition try_except {E E' A} (m : M E A) (h : E -> M E' A) : M E' A :=
  fun w =>
    let r := m w in
    match outcome r with
    | inl e =>
        let r' := h e (world r) in
        mkRun (events r ++ events r') (outcome r') (world r')
    | inr a => mkRun (events r) (inr a) (world r)
    end.

(** [logger.error(msg)] *)
Definition logger_error {E} (msg : str) : M E unit :=
  fun w => mkRun [LogError msg] (inr tt) w.

Notation "x <- m ;; k" := (bind m (fun x => k))
  (at level 61, m at next level, right associativity).
Notation "m ;;; k" := (bind m (fun _ => k))
  (at level 61, right associativity).

(** The pipeline object: called on a text it raises an exception (known
    here by its message, [str(e)]) or returns a list of predictions. *)
Definition Pipeline := str -> World -> (str + list Prediction) * World.

(** [pipe(text)] *)
Definition call (pipe : Pipeline) (arg : str) : M str (list Prediction) :=
  fun w =>
    let '(res, w') := pipe arg w in
    match res with
    | inl msg => mkRun [AdapterCall arg (Some msg)] (inl msg) w'
    | inr preds => mkRun [AdapterCall arg None] (inr preds) w'
    end.

(** [l[0]], an [IndexError] on the empty list. *)
Definition getitem0 {A} (l : list A) : M str A :=
  match l with
  | [] => raise (py "list index out of range")
  | x :: _ => ret x
  end.

(** [for x in xs: acc = body x acc] *)
Fixpoint for_each {E A S} (xs : list A) (body : A -> S -> M E S) (acc : S)
  : M E S :=
  match xs with
  | [] => ret acc
  | x :: xs' => acc' <- body x acc ;; for_each xs' body acc'
  end.

(** The module-level variable set once at import time: the loaded
    pipeline, or [None] when loading failed. *)
Variable sentiment_pipeline : option Pipeline.

(** [POST /analyze] *)
Definition analyze_sentiment (input_data : TextInput.t)
  : M HTTPException SentimentOutput.t :=
  match sentiment_pipeline with
  | None => raise ModelUnavailable
  | Some pipe =>
      if negb (truthy (strip (TextInput.text input_data)))
      then raise EmptyInput
      else
        try_except
          (preds <- call pipe (slice_to 512 (TextInput.text input_data)) ;;
           result <- getitem0 preds ;;
           let sentiment := label result in
           let confidence := score result in
           let sentiment :=
             if confidence <? 0.6 then py "NEUTRAL" else sentiment in
           ret (SentimentOutput.mk
                  (TextInput.text input_data)
                  sentiment
                  (round confidence 4)
                  [[(py "label", VStr (label result));
                    (py "score", VFloat (round (score result) 4))]]))
          (fun e =>
             logger_error (py "Error analyzing sentiment: " ++ e) ;;;
             raise (InferenceError e))
  end.

(** The body of the loop of [batch_analyze_sentiment], for one text. *)
Definition batch_item (pipe : Pipeline) (text : str) (results : list dict)
  : M str (list dict) :=
  if truthy (strip text) then
    preds <- call pipe (slice_to 512 text) ;;
    result <- getitem0 preds ;;
    let sentiment := label result in
    let confidence := score result in
    let sentiment :=
      if confidence <? 0.6 then py "NEUTRAL" else sentiment in
    ret (results ++ [[(py "text", VStr text);
                      (py "sentiment", VStr sentiment);
                      (py "confidence", VFloat (round confidence 4))]])
  else ret results.

(** [POST /batch-analyze]; the response is the dictionary
    [{"results": results}]. *)
Definition batch_analyze_sentiment (input_data : BatchTextInput.t)
  : M HTTPException (list (str * list dict)) :=
  match sentiment_pipeline with
  | None => raise ModelUnavailable
  | Some pipe =>
      if negb (truthy (BatchTextInput.texts input_data))
      then raise EmptyBatch
      else
        try_except
          (results <- for_each
                        (slice_to 10 (BatchTextInput.texts input_data))
                        (batch_item pipe) [] ;;
           ret [(py "results", results)])
          (fun e =>
             logger_error (py "Error in batch analysis: " ++ e) ;;;
             raise (InferenceError e))
  end.

(** [GET /health]: the dictionary returned, a string or a boolean under
    each key. *)
Definition health_check : list (str * (str + bool)) :=
  [(py "status", inl (py "healthy"));
   (py "model_loaded",
    inr (match sentiment_pipeline with Some _ => true | None => false end))].

(** [gradio_sentiment], the function behind the interface [app.py] mounts.
    It has no guard on [sentiment_pipeline] and no [try]: calling [None] is
    a [TypeError], and exceptions leave the function as they are (known here
    by their message). *)
Definition gradio_sentiment (text : str) : M str dict :=
  if negb (truthy (strip text))
  then ret [(py "Error", VStr (py "Text cannot be empty."))]
  else
    preds <- match sentiment_pipeline with
             | Some pipe => call pipe (slice_to 512 text)
             | None => raise (py "'NoneType' object is not callable")
             end ;;
    result <- getitem0 preds ;;
    let sentiment := label result in
    let confidence := score result in
    let sentiment :=
      if confidence <? 0.6 then py "NEUTRAL" else sentiment in
    ret [(py "Sentiment", VStr sentiment);
         (py "Confidence", VFloat (round confidence 4))].

End Handlers.

(* ================================================================= *)
(** ** The stand-alone interface of [gradio_app.py] *)

Module GradioApp.

(** What the function does besides computing: it sleeps, and it calls the
    pipeline. *)
Inductive Effect :=
| Sleep (seconds : float)
| Adapter (ev : Event).

Definition nl : str := [10%N].
Definition dquote : str := [34%N].

Section App.

Variable World : Type.

(** The pipeline, loaded at import time with no [try]: the module does not
    exist without it. *)
Variable sentiment_pipeline : Pipeline World.

(** Two built-ins of Python, taken as given: [format(x, '.2f')] and
    [str(x)] for a float [x]. *)
Variable format_2f : float -> str.
Variable str_float : float -> str.

(** The f-string assigned to [html_output]. *)
Definition html_output (color emoji sentiment : str)
    (confidence_percent : float) (text : str) : str :=
  nl
  ++ py "        <div style='padding: 20px; border-radius: 10px; background: linear-gradient(135deg, " ++ color ++ py "22 0%, " ++ color ++ py "11 100%); border-left: 4px solid " ++ color ++ py ";'>" ++ nl
  ++ py "            <h2 style='color: " ++ color ++ py "; margin: 0 0 15px 0;'>" ++ nl
  ++ py "                " ++ emoji ++ py " Sentiment: " ++ sentiment ++ nl
  ++ py "            </h2>" ++ nl
  ++ py "            <div style='margin: 15px 0;'>" ++ nl
  ++ py "                <p style='margin: 5px 0; font-size: 16px;'><strong>Confidence Score:</strong> " ++ format_2f confidence_percent ++ py "%</p>" ++ nl
  ++ py "                <div style='background: #eee; border-radius: 10px; height: 25px; overflow: hidden; margin: 10px 0;'>" ++ nl
  ++ py "                    <div style='background: " ++ color ++ py "; height: 100%; width: " ++ str_float confidence_percent ++ py "%; border-radius: 10px; transition: width 0.5s ease;'></div>" ++ nl
  ++ py "                </div>" ++ nl
  ++ py "            </div>" ++ nl
  ++ py "            <div style='margin-top: 20px; padding: 15px; background: white; border-radius: 8px;'>" ++ nl
  ++ py "                <p style='margin: 0; color: #555; font-style: italic;'>" ++ dquote ++ slice_to 100 text ++ (if (100 <? List.length text)%nat then py "..." else []) ++ dquote ++ py "</p>" ++ nl
  ++ py "            </div>" ++ nl
  ++ py "        </div>" ++ nl
  ++ py "        ".

(** [analyze_sentiment(text)] of [gradio_app.py]: the three values shown
    (label, confidence, HTML), the effects in order, and the world after.
    Every exception of the [try] block is caught. *)
Definition analyze_sentiment (text : str) (w : World)
  : list Effect * (str * value * str) * World :=
  if negb (truthy (strip text))
  then ([],
        ([0x26A0; 0xFE0F]%N ++ py " NEUTRAL", VFloat 0.0,
         py "<p style='color: #666;'>Please enter some text to analyze.</p>"),
        w)
  else
    let r :=
      bind (call sentiment_pipeline (slice_to 512 text)) (fun preds =>
      bind (getitem0 preds) (fun result =>
      let sentiment := label result in
      let confidence := score result in
      let '(sentiment, emoji, color) :=
        if confidence <? 0.6
        then (py "NEUTRAL", [0x1F610%N], py "#FFA500")
        else if str_eq_dec sentiment (py "POSITIVE")
             then (sentiment, [0x1F60A%N], py "#4CAF50")
             else (py "NEGATIVE", [0x1F61E%N], py "#F44336") in
      let confidence_percent := confidence * 100 in
      ret (emoji ++ py " " ++ sentiment,
           VStr (format_2f confidence_percent ++ py "%"),
           html_output color emoji sentiment confidence_percent text))) w in
    (Sleep 0.3 :: List.map Adapter (events r),
     match outcome r with
     | inr shown => shown
     | inl e =>
         ([0x274C%N] ++ py " ERROR", VStr (py "0.00%"),
          py "<p style='color: red;'>Error: " ++ e ++ py "</p>")
     end,
     world r).

End App.

(** The parts of what [analyze_sentiment] gives back. *)
Definition effects_of {World} (res : list Effect * (str * value * str) * World)
  : list Effect := fst (fst res).
Definition shown_label {World} (res : list Effect * (str * value * str) * World)
  : str := fst (fst (snd (fst res))).
Definition shown_confidence {World}
    (res : list Effect * (str * value * str) * World) : value :=
  snd (fst (snd (fst res))).
Definition world_after {World} (res : list Effect * (str * value * str) * World)
  : World := snd res.

End GradioApp.

(* ================================================================= *)
(** ** Vocabulary of the statements *)

(** The loop's test on an item: [text.strip()] is non-empty. *)
Definition nonblank (text : str) : bool := truthy (strip text).

(** The response [analyze_sentiment] builds from a text and the first
    prediction of the pipeline. *)
Definition single_output (text : str) (p : Prediction) : SentimentOutput.t :=
  SentimentOutput.mk text
    (if score p <? 0.6 then py "NEUTRAL" else label p)
    (round (score p) 4)
    [[(py "label", VStr (label p)); (py "score", VFloat (round (score p) 4))]].

(** The record [batch_analyze_sentiment] appends for a text and the first
    prediction of the pipeline. *)
Definition batch_record (text : str) (p : Prediction) : dict :=
  [(py "text", VStr text);
   (py "sentiment", VStr (if score p <? 0.6 then py "NEUTRAL" else label p));
   (py "confidence", VFloat (round (score p) 4))].

(** [n / 10^ndigits] is a decimal with [ndigits] fractional digits nearest
    the exact value [m * 2^e]: at most half a unit of the last digit away. *)
Definition nearest_decimal (m : positive) (e : Z) (ndigits : nat) (n : Z)
  : Prop :=
  let d := (2 ^ Z.max 0 (- e))%Z in
  (2 * Z.abs (Z.pos m * 2 ^ Z.max 0 e * 10 ^ Z.of_nat ndigits - n * d) <= d)%Z.

(** A float with [ndigits] decimal digits of precision: the float of a
    decimal [(-1)^s * n / 10^ndigits] with [n] a natural number. *)
Definition has_decimal_digits (x : float) (ndigits : nat) : Prop :=
  exists (s : bool) (n : Z), (0 <= n)%Z /\ x = float_of_decimal s n ndigits.

(** A pipeline whose answer depends on the text only, not on the world. *)
Definition deterministic {World} (pipe : Pipeline World) : Prop :=
  forall text w1 w2, fst (pipe text w1) = fst (pipe text w2).

(** A pipeline that always returns at least one prediction. *)
Definition reliable {World} (pipe : Pipeline World) : Prop :=
  forall text w, exists p rest w', pipe text w = (inr (p :: rest), w').

(** A stand-in pipeline for the examples. Its world counts the calls made;
    it raises on the text [boom], is unsure about [meh] and likes the rest. *)
Definition mock_pipeline : Pipeline nat :=
  fun text calls =>
    (if str_eq_dec text (py "boom") then inl (py "model failure")
     else if str_eq_dec text (py "meh")
          then inr [{| label := py "NEGATIVE"; score := 0.52 |}]
          else inr [{| label := py "POSITIVE"; score := 0.95 |}],
     S calls).

(** A stand-in pipeline that answers every text with the same prediction
    and has no state. *)
Definition fixed_pipeline (p : Prediction) : Pipeline unit :=
  fun _ w => (inr [p], w).

(** A call of the pipeline that returned. *)
Definition successful_call (ev : Event) : bool :=
  match ev with
  | AdapterCall _ None => true
  | _ => false
  end.

(** The face [gradio_app.py] shows beside each of its three sentiments. *)
Definition face (sentiment : str) : str :=
  if str_eq_dec sentiment (py "NEUTRAL") then [0x1F610%N]
  else if str_eq_dec sentiment (py "POSITIVE") then [0x1F60A%N]
  else [0x1F61E%N].

(* ================================================================= *)
(** ** Facts about strings *)

Lemma lstrip_nil_iff (s : str) : lstrip s = [] <-> whitespace_only s = true.
Proof.
  unfold whitespace_only.
  induction s as [|c s IH]; simpl; [tauto|].
  destruct (isspace c); simpl; [exact IH|].
  split; discriminate.
Qed.

Lemma lstrip_head (s : str) :
  match lstrip s with
  | [] => True
  | c :: _ => isspace c = false
  end.
Proof.
  induction s as [|c s IH]; simpl; [exact I|].
  destruct (isspace c) eqn:E; [exact IH | exact E].
Qed.

Lemma whitespace_only_rev (s : str) :
  whitespace_only (rev s) = whitespace_only s.
Proof.
  unfold whitespace_only.
  induction s as [|c s IH]; simpl; [reflexivity|].
  rewrite forallb_app, IH; simpl.
  rewrite andb_true_r. apply andb_comm.
Qed.

(** The handlers' test [not text.strip()] is the spec's "empty or
    whitespace-only". *)
Lemma strip_nil_iff (s : str) : strip s = [] <-> whitespace_only s = true.
Proof.
  unfold strip, rstrip. split.
  - intros H.
    assert (H1 : lstrip (rev (lstrip s)) = []).
    { destruct (lstrip (rev (lstrip s))) as [|a l]; [reflexivity|].
      simpl in H. destruct (rev l); discriminate. }
    apply lstrip_nil_iff in H1. rewrite whitespace_only_rev in H1.
    pose proof (lstrip_head s) as Hh.
    destruct (lstrip s) as [|c l] eqn:E.
    + apply lstrip_nil_iff. exact E.
    + simpl in H1. unfold whitespace_only in H1. simpl in H1.
      rewrite Hh in H1. discriminate.
  - intros H. apply lstrip_nil_iff in H. rewrite H. reflexivity.
Qed.

Lemma truthy_strip (s : str) : truthy (strip s) = negb (whitespace_only s).
Proof.
  destruct (whitespace_only s) eqn:E.
  - apply strip_nil_iff in E. rewrite E. reflexivity.
  - destruct (strip s) eqn:E'; [|reflexivity].
    apply strip_nil_iff in E'. congruence.
Qed.

Lemma truthy_true_iff {A} (l : list A) : truthy l = true <-> l <> [].
Proof. destruct l; simpl; split; congruence. Qed.

Lemma slice_to_prefix {A} (n : nat) (s : list A) :
  exists rest, s = slice_to n s ++ rest /\
               List.length (slice_to n s) = Nat.min n (List.length s).
Proof.
  exists (skipn n s). unfold slice_to. split.
  - symmetry. apply firstn_skipn.
  - apply length_firstn.
Qed.

(* ================================================================= *)
(** ** Facts about floats *)

Lemma SFcompare_antisym (x y : spec_float) (c : comparison) :
  SFcompare x y = Some c -> SFcompare y x = Some (CompOpp c).
Proof.
  destruct x as [sx|sx| |sx mx ex], y as [sy|sy| |sy my ey]; simpl;
    try discriminate;
    try (intros H; injection H as <-;
         repeat match goal with b : bool |- _ => destruct b end;
         reflexivity).
  intros H; injection H as <-. f_equal.
  rewrite (Z.compare_antisym ex ey).
  change (PosDef.Pos.compare_cont Eq my mx) with (Pos.compare my mx).
  change (PosDef.Pos.compare_cont Eq mx my) with (Pos.compare mx my).
  rewrite (Pos.compare_antisym mx my).
  destruct sx, sy; try reflexivity;
    destruct (ex ?= ey)%Z; simpl; try reflexivity;
    destruct (mx ?= my)%positive; reflexivity.
Qed.

(** [x >= y] (that is, [y <= x]) rules out [x < y]. *)
Lemma ltb_false_of_leb (x y : float) : (y <=? x) = true -> (x <? y) = false.
Proof.
  rewrite leb_spec, ltb_spec. unfold SFleb, SFltb.
  destruct (SFcompare (Prim2SF y) (Prim2SF x)) as [c|] eqn:E; [|discriminate].
  rewrite (SFcompare_antisym _ _ E).
  destruct c; simpl; congruence.
Qed.

Lemma round_half_even_nearest (num den : Z) :
  (0 < den)%Z ->
  (2 * Z.abs (num - round_half_even num den * den) <= den)%Z.
Proof.
  intros Hd. unfold round_half_even.
  pose proof (Z.div_mod num den ltac:(lia)) as Hdm.
  pose proof (Z.mod_pos_bound num den Hd) as Hb.
  set (q := (num / den)%Z) in *. set (r := (num mod den)%Z) in *.
  clearbody q r.
  destruct (Z.compare_spec (2 * r) den) as [E|E|E].
  - destruct (Z.even q); lia.
  - lia.
  - lia.
Qed.

Lemma round_half_even_nonneg (num den : Z) :
  (0 <= num)%Z -> (0 < den)%Z -> (0 <= round_half_even num den)%Z.
Proof.
  intros Hn Hd. unfold round_half_even.
  pose proof (Z.div_pos num den Hn Hd) as Hq.
  destruct (2 * (num mod den) ?= den)%Z; [destruct (Z.even _)| |]; lia.
Qed.

Lemma scaled_digits_nonneg (m : positive) (e : Z) (ndigits : nat) :
  (0 <= scaled_digits m e ndigits)%Z.
Proof.
  unfold scaled_digits.
  assert (Hp : (0 < 10 ^ Z.of_nat ndigits)%Z) by (apply Z.pow_pos_nonneg; lia).
  destruct (0 <=? e)%Z eqn:E.
  - apply Z.leb_le in E.
    assert (0 < 2 ^ e)%Z by (apply Z.pow_pos_nonneg; lia). nia.
  - apply Z.leb_gt in E. apply round_half_even_nonneg.
    + nia.
    + apply Z.pow_pos_nonneg; lia.
Qed.

(** [scaled_digits] is a nearest integer to [m * 2^e * 10^ndigits]. *)
Lemma scaled_digits_nearest (m : positive) (e : Z) (ndigits : nat) :
  nearest_decimal m e ndigits (scaled_digits m e ndigits).
Proof.
  unfold nearest_decimal, scaled_digits.
  destruct (0 <=? e)%Z eqn:E.
  - apply Z.leb_le in E.
    rewrite (Z.max_r 0 e) by lia. rewrite (Z.max_l 0 (- e)) by lia.
    change (2 ^ 0)%Z with 1%Z. rewrite Z.mul_1_r, Z.sub_diag. simpl. lia.
  - apply Z.leb_gt in E.
    rewrite (Z.max_l 0 e) by lia. rewrite (Z.max_r 0 (- e)) by lia.
    change (2 ^ 0)%Z with 1%Z. rewrite Z.mul_1_r.
    apply round_half_even_nearest. apply Z.pow_pos_nonneg; lia.
Qed.

(** [round] of a finite float is the float of a decimal. *)
Lemma round_has_decimal_digits (x : float) (ndigits : nat) :
  finite x = true -> has_decimal_digits (round x ndigits) ndigits.
Proof.
  unfold finite, round, has_decimal_digits.
  destruct (Prim2SF x) as [s|s| |s m e] eqn:E; try discriminate; intros _.
  - exists s, 0%Z. split; [lia|]. unfold float_of_decimal.
    rewrite <- E. symmetry. apply SF2Prim_Prim2SF.
  - exists s, (scaled_digits m e ndigits). split; [|reflexivity].
    apply scaled_digits_nonneg.
Qed.

Lemma firstn_le_length_list {A} (k : nat) (l : list A) :
  (List.length (firstn k l) <= List.length l)%nat.
Proof. rewrite length_firstn. apply Nat.le_min_r. Qed.

(* ================================================================= *)
(** ** Runs of the single-text handler *)

Section HandlerFacts.

Variable World : Type.
Implicit Types (pipe : Pipeline World) (w : World) (text : str).

Lemma analyze_unloaded (input_data : TextInput.t) w :
  analyze_sentiment None input_data w = mkRun [] (inl ModelUnavailable) w.
Proof. reflexivity. Qed.

Lemma analyze_blank pipe text w :
  whitespace_only text = true ->
  analyze_sentiment (Some pipe) (TextInput.mk text) w
  = mkRun [] (inl EmptyInput) w.
Proof.
  intros H. unfold analyze_sentiment. simpl.
  rewrite truthy_strip, H. reflexivity.
Qed.

Lemma analyze_ok pipe text w p rest w' :
  strip text <> [] ->
  pipe (slice_to 512 text) w = (inr (p :: rest), w') ->
  analyze_sentiment (Some pipe) (TextInput.mk text) w
  = mkRun [AdapterCall (slice_to 512 text) None]
          (inr (single_output text p)) w'.
Proof.
  intros H Hp. apply truthy_true_iff in H.
  unfold analyze_sentiment. cbn [TextInput.text]. rewrite H.
  unfold try_except, bind, call. cbn [negb]. rewrite Hp. reflexivity.
Qed.

Lemma analyze_raised pipe text w msg w' :
  strip text <> [] ->
  pipe (slice_to 512 text) w = (inl msg, w') ->
  analyze_sentiment (Some pipe) (TextInput.mk text) w
  = mkRun [AdapterCall (slice_to 512 text) (Some msg);
           LogError (py "Error analyzing sentiment: " ++ msg)]
          (inl (InferenceError msg)) w'.
Proof.
  intros H Hp. apply truthy_true_iff in H.
  unfold analyze_sentiment. cbn [TextInput.text]. rewrite H.
  unfold try_except, bind, call. cbn [negb]. rewrite Hp. reflexivity.
Qed.

Lemma analyze_no_prediction pipe text w w' :
  strip text <> [] ->
  pipe (slice_to 512 text) w = (inr [], w') ->
  analyze_sentiment (Some pipe) (TextInput.mk text) w
  = mkRun [AdapterCall (slice_to 512 text) None;
           LogError (py "Error analyzing sentiment: "
                     ++ py "list index out of range")]
          (inl (InferenceError (py "list index out of range"))) w'.
Proof.
  intros H Hp. apply truthy_true_iff in H.
  unfold analyze_sentiment. cbn [TextInput.text]. rewrite H.
  unfold try_except, bind, call. cbn [negb]. rewrite Hp. reflexivity.
Qed.

(** Whatever the pipeline does, a text that passes validation costs one
    call of it, on the first 512 characters. *)
Lemma analyze_calls_once pipe text w :
  strip text <> [] ->
  adapter_args (events (analyze_sentiment (Some pipe) (TextInput.mk text) w))
  = [slice_to 512 text].
Proof.
  intros H.
  destruct (pipe (slice_to 512 text) w) as [[msg|[|p rest]] w'] eqn:Hp.
  - rewrite (analyze_raised _ _ _ H Hp). reflexivity.
  - rewrite (analyze_no_prediction _ _ _ H Hp). reflexivity.
  - rewrite (analyze_ok _ _ _ H Hp). reflexivity.
Qed.

(** A successful response is the one built from the first prediction. *)
Lemma analyze_inr_inv pipe text w out :
  outcome (analyze_sentiment (Some pipe) (TextInput.mk text) w) = inr out ->
  strip text <> [] /\
  exists p rest w', pipe (slice_to 512 text) w = (inr (p :: rest), w')
                    /\ out = single_output text p.
Proof.
  intros H.
  destruct (whitespace_only text) eqn:Hws.
  { rewrite (analyze_blank _ _ _ Hws) in H. discriminate. }
  assert (Hs : strip text <> []).
  { intros E. apply strip_nil_iff in E. congruence. }
  split; [exact Hs|].
  destruct (pipe (slice_to 512 text) w) as [[msg|[|p rest]] w'] eqn:Hp.
  - rewrite (analyze_raised _ _ _ Hs Hp) in H. discriminate.
  - rewrite (analyze_no_prediction _ _ _ Hs Hp) in H. discriminate.
  - rewrite (analyze_ok _ _ _ Hs Hp) in H. simpl in H.
    injection H as <-. eauto.
Qed.

(** With a deterministic pipeline the outcome does not depend on the
    world the request finds. *)
Lemma analyze_outcome_world pipe (input_data : TextInput.t) w1 w2 :
  deterministic pipe ->
  outcome (analyze_sentiment (Some pipe) input_data w1)
  = outcome (analyze_sentiment (Some pipe) input_data w2).
Proof.
  intros Hdet. destruct input_data as [text].
  destruct (whitespace_only text) eqn:Hws.
  { rewrite !(analyze_blank _ _ _ Hws). reflexivity. }
  assert (Hs : strip text <> []).
  { intros E. apply strip_nil_iff in E. congruence. }
  specialize (Hdet (slice_to 512 text) w1 w2).
  destruct (pipe (slice_to 512 text) w1) as [a1 w1'] eqn:Hp1.
  destruct (pipe (slice_to 512 text) w2) as [a2 w2'] eqn:Hp2.
  cbn [fst] in Hdet. subst a2.
  destruct a1 as [msg|[|p rest]].
  - rewrite (analyze_raised _ _ _ Hs Hp1), (analyze_raised _ _ _ Hs Hp2).
    reflexivity.
  - rewrite (analyze_no_prediction _ _ _ Hs Hp1),
      (analyze_no_prediction _ _ _ Hs Hp2).
    reflexivity.
  - rewrite (analyze_ok _ _ _ Hs Hp1), (analyze_ok _ _ _ Hs Hp2).
    reflexivity.
Qed.

End HandlerFacts.

(* ================================================================= *)
(** ** Runs of the batch loop *)

Section BatchFacts.

Variable World : Type.
Variable pipe : Pipeline World.
Implicit Types (w : World) (text : str) (acc : list dict) (xs : list str).

Lemma nonblank_false_iff text :
  nonblank text = false <-> whitespace_only text = true.
Proof.
  unfold nonblank. rewrite truthy_strip.
  destruct (whitespace_only text); simpl; split; congruence.
Qed.

Lemma batch_item_blank text acc w :
  nonblank text = false ->
  batch_item pipe text acc w = mkRun [] (inr acc) w.
Proof.
  unfold nonblank, batch_item. intros ->. reflexivity.
Qed.

Lemma batch_item_ok text acc w p rest w' :
  nonblank text = true ->
  pipe (slice_to 512 text) w = (inr (p :: rest), w') ->
  batch_item pipe text acc w
  = mkRun [AdapterCall (slice_to 512 text) None]
          (inr (acc ++ [batch_record text p])) w'.
Proof.
  unfold nonblank, batch_item. intros -> Hp.
  unfold bind, call. rewrite Hp. reflexivity.
Qed.

Lemma batch_item_raised text acc w msg w' :
  nonblank text = true ->
  pipe (slice_to 512 text) w = (inl msg, w') ->
  batch_item pipe text acc w
  = mkRun [AdapterCall (slice_to 512 text) (Some msg)] (inl msg) w'.
Proof.
  unfold nonblank, batch_item. intros -> Hp.
  unfold bind, call. rewrite Hp. reflexivity.
Qed.

Lemma batch_item_no_prediction text acc w w' :
  nonblank text = true ->
  pipe (slice_to 512 text) w = (inr [], w') ->
  batch_item pipe text acc w
  = mkRun [AdapterCall (slice_to 512 text) None]
          (inl (py "list index out of range")) w'.
Proof.
  unfold nonblank, batch_item. intros -> Hp.
  unfold bind, call. rewrite Hp. reflexivity.
Qed.

Lemma for_each_cons {E A S} (x : A) (l : list A)
      (body : A -> S -> M World E S) (a : S) w :
  for_each (x :: l) body a w
  = let r := body x a w in
    match outcome r with
    | inl e => mkRun (events r) (inl e) (world r)
    | inr a' =>
        let r' := for_each l body a' (world r) in
        mkRun (events r ++ events r') (outcome r') (world r')
    end.
Proof. reflexivity. Qed.

(** One iteration, by cases on the item and on the pipeline's answer. *)
Ltac loop_step text acc w :=
  let Hnb := fresh "Hnb" in
  let Hp := fresh "Hp" in
  let msg := fresh "msg" in
  let p := fresh "p" in
  let rest := fresh "rest" in
  let w' := fresh "w'" in
  rewrite for_each_cons;
  destruct (nonblank text) eqn:Hnb;
  [ destruct (pipe (slice_to 512 text) w) as [[msg|[|p rest]] w'] eqn:Hp;
    [ rewrite (@batch_item_raised text acc w msg w' Hnb Hp)
    | rewrite (@batch_item_no_prediction text acc w w' Hnb Hp)
    | rewrite (@batch_item_ok text acc w p rest w' Hnb Hp) ]
  | rewrite (@batch_item_blank text acc w Hnb) ];
  cbn [outcome events world filter app].

(** The loop stops at the first call that raises, with its message. *)
Lemma loop_raised xs : forall acc w arg m,
  In (AdapterCall arg (Some m)) (events (for_each xs (batch_item pipe) acc w)) ->
  outcome (for_each xs (batch_item pipe) acc w) = inl m.
Proof.
  induction xs as [|text xs IH]; intros acc w arg m.
  - simpl. tauto.
  - loop_step text acc w; intros Hin.
    + destruct Hin as [Hin|[]]. congruence.
    + destruct Hin as [Hin|[]]. discriminate.
    + destruct Hin as [Hin|Hin]; [discriminate|]. eapply IH; eassumption.
    + eapply IH; eassumption.
Qed.

(** A loop that ends normally called the pipeline once per non-blank
    item, in order, and appended one record per such item, in order. *)
Lemma loop_ok xs : forall acc w res,
  outcome (for_each xs (batch_item pipe) acc w) = inr res ->
  adapter_args (events (for_each xs (batch_item pipe) acc w))
  = List.map (slice_to 512) (filter nonblank xs)
  /\ exists new,
       res = acc ++ new
       /\ Forall2 (fun text d => exists p, d = batch_record text p)
                  (filter nonblank xs) new.
Proof.
  induction xs as [|text xs IH]; intros acc w res.
  - simpl. intros H. injection H as <-. split; [reflexivity|].
    exists []. rewrite app_nil_r. split; [reflexivity | constructor].
  - loop_step text acc w; rewrite ?Hnb; intros H; try discriminate.
    + destruct (IH _ _ _ H) as [Hargs [new [-> HF]]].
      split.
      * unfold adapter_args in *. simpl. f_equal. exact Hargs.
      * exists (batch_record text p :: new). split.
        -- rewrite <- app_assoc. reflexivity.
        -- constructor; [eauto | exact HF].
    + apply IH. exact H.
Qed.

(** However the loop ends, its calls are the first [k] of those. *)
Lemma loop_args_prefix xs : forall acc w,
  exists k,
    adapter_args (events (for_each xs (batch_item pipe) acc w))
    = firstn k (List.map (slice_to 512) (filter nonblank xs)).
Proof.
  induction xs as [|text xs IH]; intros acc w.
  - exists 0%nat. reflexivity.
  - loop_step text acc w; rewrite ?Hnb.
    + exists 1%nat. reflexivity.
    + exists 1%nat. reflexivity.
    + destruct (IH (acc ++ [batch_record text p]) w') as [k Hk].
      exists (S k). unfold adapter_args in *. simpl. f_equal. exact Hk.
    + apply IH.
Qed.

(** With a pipeline that always answers, the loop ends normally. *)
Lemma loop_reliable xs : reliable pipe -> forall acc w,
  exists res, outcome (for_each xs (batch_item pipe) acc w) = inr res.
Proof.
  intros Hrel.
  induction xs as [|text xs IH]; intros acc w.
  - exists acc. reflexivity.
  - destruct (Hrel (slice_to 512 text) w) as [p0 [rest0 [w0 Hp0]]].
    loop_step text acc w; try congruence; apply IH.
Qed.

(** Blank items leave no trace at all. *)
Lemma loop_all_blank xs : forall acc w,
  forallb whitespace_only xs = true ->
  for_each xs (batch_item pipe) acc w = mkRun [] (inr acc) w.
Proof.
  induction xs as [|text xs IH]; intros acc w H.
  - reflexivity.
  - simpl in H. apply andb_true_iff in H as [H1 H2].
    apply nonblank_false_iff in H1.
    rewrite for_each_cons, (@batch_item_blank text acc w H1).
    cbn [outcome events world app]. rewrite (IH _ _ H2). reflexivity.
Qed.

(** The handler around the loop. *)
Lemma batch_run (texts : list str) w :
  texts <> [] ->
  batch_analyze_sentiment (Some pipe) (BatchTextInput.mk texts) w
  = let r := for_each (slice_to 10 texts) (batch_item pipe) [] w in
    match outcome r with
    | inl e =>
        mkRun (events r ++ [LogError (py "Error in batch analysis: " ++ e)])
              (inl (InferenceError e)) (world r)
    | inr results =>
        mkRun (events r) (inr [(py "results", results)]) (world r)
    end.
Proof.
  intros H. apply truthy_true_iff in H.
  unfold batch_analyze_sentiment. cbn [BatchTextInput.texts]. rewrite H.
  unfold try_except, bind. cbn [negb].
  destruct (outcome (for_each (slice_to 10 texts) (batch_item pipe) [] w));
    cbn; rewrite ?app_nil_r; reflexivity.
Qed.

Lemma batch_empty (sp : option (Pipeline World)) w :
  batch_analyze_sentiment sp (BatchTextInput.mk []) w
  = mkRun [] (inl (match sp with
                   | None => ModelUnavailable
                   | Some _ => EmptyBatch
                   end)) w.
Proof. destruct sp; reflexivity. Qed.

Lemma Forall2_length_eq {A B} (R : A -> B -> Prop) (l : list A) (l' : list B) :
  Forall2 R l l' -> List.length l = List.length l'.
Proof. induction 1; simpl; congruence. Qed.

(** A successful batch response: one record per non-blank item among the
    first ten, in order, and as many pipeline calls. *)
Lemma batch_inr_inv (texts : list str) w body :
  outcome (batch_analyze_sentiment (Some pipe) (BatchTextInput.mk texts) w)
  = inr body ->
  exists results,
    body = [(py "results", results)]
    /\ Forall2 (fun text d => exists p, d = batch_record text p)
               (filter nonblank (slice_to 10 texts)) results
    /\ adapter_args (events (batch_analyze_sentiment (Some pipe)
                               (BatchTextInput.mk texts) w))
       = List.map (slice_to 512) (filter nonblank (slice_to 10 texts)).
Proof.
  destruct texts as [|t ts].
  { rewrite batch_empty. discriminate. }
  rewrite batch_run by discriminate. cbv zeta.
  destruct (outcome (for_each (slice_to 10 (t :: ts)) (batch_item pipe) [] w))
    as [e|results] eqn:E; [discriminate|].
  cbn [outcome events]. intros H. injection H as <-.
  destruct (loop_ok _ _ _ E) as [Hargs [new [-> HF]]].
  exists new. split; [reflexivity|]. split; [exact HF | exact Hargs].
Qed.

Lemma adapter_args_app (l l' : list Event) :
  adapter_args (l ++ l') = adapter_args l ++ adapter_args l'.
Proof. unfold adapter_args. induction l; simpl; [|rewrite IHl, app_assoc]; reflexivity. Qed.

Lemma filter_nonblank xs :
  filter nonblank xs = filter (fun t => negb (whitespace_only t)) xs.
Proof. apply filter_ext. intros t. apply truthy_strip. Qed.

(** However a batch request ends, its pipeline calls are the first [k]
    of those its non-blank items among the first ten ask for. *)
Lemma batch_args_prefix (texts : list str) w :
  exists k,
    adapter_args (events (batch_analyze_sentiment (Some pipe)
                            (BatchTextInput.mk texts) w))
    = firstn k (List.map (slice_to 512)
                  (filter nonblank (slice_to 10 texts))).
Proof.
  destruct texts as [|t ts].
  { exists 0%nat. reflexivity. }
  rewrite batch_run by discriminate. cbv zeta.
  destruct (loop_args_prefix (slice_to 10 (t :: ts)) [] w) as [k Hk].
  exists k.
  destruct (outcome (for_each (slice_to 10 (t :: ts)) (batch_item pipe) [] w));
    cbn [events]; [rewrite adapter_args_app, app_nil_r|]; exact Hk.
Qed.

(** Items after the tenth change nothing. *)
Lemma batch_first_ten (sp : option (Pipeline World)) (texts : list str) w :
  batch_analyze_sentiment sp (BatchTextInput.mk texts) w
  = batch_analyze_sentiment sp (BatchTextInput.mk (slice_to 10 texts)) w.
Proof.
  unfold batch_analyze_sentiment. cbn [BatchTextInput.texts].
  destruct sp as [p|]; [|reflexivity].
  replace (slice_to 10 (slice_to 10 texts)) with (slice_to 10 texts).
  - destruct texts; reflexivity.
  - unfold slice_to. rewrite firstn_firstn. reflexivity.
Qed.

Lemma forallb_slice_to {A} (f : A -> bool) (n : nat) (l : list A) :
  forallb f l = true -> forallb f (slice_to n l) = true.
Proof.
  unfold slice_to. revert n.
  induction l as [|a l IH]; intros [|n] H; try reflexivity.
  simpl in *. apply andb_true_iff in H as [-> H]. apply IH. exact H.
Qed.

(** The texts of the records built for a list of items are those items. *)
Lemma record_texts (ts : list str) (ds : list dict) :
  Forall2 (fun text d => exists p, d = batch_record text p) ts ds ->
  List.map (fun d => get d (py "text")) ds
  = List.map (fun text => Some (VStr text)) ts.
Proof.
  induction 1 as [|text d ts ds [p ->] _ IH]; [reflexivity|].
  simpl. rewrite IH. reflexivity.
Qed.

(** With a pipeline that always answers, a non-empty batch succeeds. *)
Lemma batch_reliable (texts : list str) w :
  reliable pipe -> texts <> [] ->
  exists body,
    outcome (batch_analyze_sentiment (Some pipe) (BatchTextInput.mk texts) w)
    = inr body.
Proof.
  intros Hrel Hne. rewrite batch_run by exact Hne. cbv zeta.
  destruct (loop_reliable (slice_to 10 texts) Hrel [] w) as [res ->].
  eexists. reflexivity.
Qed.

End BatchFacts.

(* ================================================================= *)
(** ** The decision policy and the single-text service *)

(** C1. For a prediction [(rawLabel, s)] the pipeline returns for a text that
    passes validation, the response's label is [NEUTRAL] when [s < 0.6] and
    [rawLabel] when [s >= 0.6]; a score of exactly [0.6] keeps [rawLabel]. *)
Theorem neutral_below_threshold :
  forall (World : Type) (pipe : Pipeline World) (text : str) (w w' : World)
         (rawLabel : str) (s : float) (rest : list Prediction),
    strip text <> [] ->
    pipe (slice_to 512 text) w
    = (inr ({| label := rawLabel; score := s |} :: rest), w') ->
    exists out,
      outcome (analyze_sentiment (Some pipe) (TextInput.mk text) w) = inr out
      /\ ((s <? 0.6) = true -> SentimentOutput.sentiment out = py "NEUTRAL")
      /\ ((0.6 <=? s) = true -> SentimentOutput.sentiment out = rawLabel)
      /\ (s = 0.6 -> SentimentOutput.sentiment out = rawLabel).
Proof.
  intros World pipe text w w' rawLabel s rest Hs Hp.
  rewrite (analyze_ok _ _ _ Hs Hp). eexists. split; [reflexivity|].
  cbn [outcome single_output SentimentOutput.sentiment label score].
  split; [|split].
  - intros ->. reflexivity.
  - intros H. rewrite (ltb_false_of_leb H). reflexivity.
  - intros ->. reflexivity.
Qed.

Lemma neutral_below_threshold_witness :
  (exists out,
     outcome (analyze_sentiment (Some mock_pipeline)
                (TextInput.mk (py "meh")) 0%nat) = inr out
     /\ SentimentOutput.sentiment out = py "NEUTRAL")
  /\ (exists out,
        outcome (analyze_sentiment (Some mock_pipeline)
                   (TextInput.mk (py "I love this!")) 0%nat) = inr out
        /\ SentimentOutput.sentiment out = py "POSITIVE").
Proof.
  split.
  - destruct (@neutral_below_threshold nat mock_pipeline (py "meh") 0%nat 1%nat
                (py "NEGATIVE") 0.52 [])
      as [out [H1 [H2 _]]].
    + vm_compute. discriminate.
    + reflexivity.
    + exists out. split; [exact H1 | apply H2; reflexivity].
  - destruct (@neutral_below_threshold nat mock_pipeline (py "I love this!")
                0%nat 1%nat (py "POSITIVE") 0.95 [])
      as [out [H1 [_ [H3 _]]]].
    + vm_compute. discriminate.
    + reflexivity.
    + exists out. split; [exact H1 | apply H3; reflexivity].
Defined.

(** C3. A text whose stripped form is non-empty makes the service call the
    pipeline exactly once, on the first 512 characters of the text (a prefix
    of it of length [min 512 (len text)]); the response echoes the whole
    text, and there is a response whenever the pipeline returns a
    prediction. *)
Theorem classifies_prefix_echoes_text :
  forall (World : Type) (pipe : Pipeline World) (text : str) (w : World),
    strip text <> [] ->
    let r := analyze_sentiment (Some pipe) (TextInput.mk text) w in
    adapter_args (events r) = [slice_to 512 text]
    /\ (exists rest, text = slice_to 512 text ++ rest
                     /\ List.length (slice_to 512 text)
                        = Nat.min 512 (List.length text))
    /\ (forall out, outcome r = inr out -> SentimentOutput.text out = text)
    /\ (forall p rest w', pipe (slice_to 512 text) w = (inr (p :: rest), w') ->
                          exists out, outcome r = inr out).
Proof.
  intros World pipe text w Hs r. subst r. split; [|split; [|split]].
  - apply analyze_calls_once. exact Hs.
  - apply slice_to_prefix.
  - intros out H. apply analyze_inr_inv in H as [_ [p [rest [w' [_ ->]]]]].
    reflexivity.
  - intros p rest w' Hp. rewrite (analyze_ok _ _ _ Hs Hp). eexists. reflexivity.
Qed.

(** C4. An empty or whitespace-only text is refused with [EmptyInput] (the
    model being loaded), with no event and the world untouched; without a
    model every request is refused with [ModelUnavailable] in the same way;
    so a run that reached the pipeline passed both checks. *)
Theorem validation_precedes_inference :
  forall (World : Type) (sp : option (Pipeline World)) (text : str) (w : World),
    let r := analyze_sentiment sp (TextInput.mk text) w in
    (forall pipe, sp = Some pipe -> whitespace_only text = true ->
                  r = mkRun [] (inl EmptyInput) w)
    /\ (sp = None -> r = mkRun [] (inl ModelUnavailable) w)
    /\ (adapter_args (events r) <> [] ->
        sp <> None /\ whitespace_only text = false).
Proof.
  intros World sp text w r. subst r. split; [|split].
  - intros pipe -> H. apply analyze_blank. exact H.
  - intros ->. reflexivity.
  - intros H. split.
    + intros ->. apply H. reflexivity.
    + destruct sp as [pipe|]; [|exfalso; apply H; reflexivity].
      destruct (whitespace_only text) eqn:E; [|reflexivity].
      exfalso. apply H. rewrite (analyze_blank _ _ _ E). reflexivity.
Qed.

Lemma classifies_prefix_echoes_text_witness :
  let text := py "good " ++ repeat 120%N 600 in
  let r := analyze_sentiment (Some mock_pipeline) (TextInput.mk text) 0%nat in
  List.length text = 605%nat
  /\ List.map (@List.length char) (adapter_args (events r)) = [512%nat]
  /\ exists out, outcome r = inr out
                 /\ List.length (SentimentOutput.text out) = 605%nat.
Proof.
  intros text r.
  destruct (@classifies_prefix_echoes_text nat mock_pipeline text 0%nat)
    as [Hargs [_ [Hecho Hsome]]].
  - vm_compute. discriminate.
  - split; [reflexivity|]. split.
    + fold r in Hargs. rewrite Hargs. reflexivity.
    + destruct (Hsome {| label := py "POSITIVE"; score := 0.95 |} [] 1%nat)
        as [out Hout]; [reflexivity|].
      exists out. split; [exact Hout|].
      rewrite (Hecho out Hout). reflexivity.
Defined.

Lemma validation_precedes_inference_witness :
  analyze_sentiment (Some mock_pipeline) (TextInput.mk (py "   ")) 7%nat
  = mkRun [] (inl EmptyInput) 7%nat
  /\ analyze_sentiment (Some mock_pipeline) (TextInput.mk []) 7%nat
     = mkRun [] (inl EmptyInput) 7%nat
  /\ analyze_sentiment (@None (Pipeline nat)) (TextInput.mk (py "fine")) 7%nat
     = mkRun [] (inl ModelUnavailable) 7%nat.
Proof.
  split; [|split].
  - apply (proj1 (@validation_precedes_inference nat (Some mock_pipeline)
                    (py "   ") 7%nat) mock_pipeline eq_refl).
    reflexivity.
  - apply (proj1 (@validation_precedes_inference nat (Some mock_pipeline)
                    [] 7%nat) mock_pipeline eq_refl).
    reflexivity.
  - apply (proj1 (proj2 (@validation_precedes_inference nat None
                           (py "fine") 7%nat))).
    reflexivity.
Defined.

(** C7. For a text that passes validation and a prediction of score [s], the
    response's confidence is [round(s, 4)]; when [s] is finite this is the
    float of a decimal with four fractional digits, the one nearest the
    exact value of [s] (at most half a unit of the fourth digit away). *)
Theorem confidence_rounded_to_four_digits :
  forall (World : Type) (pipe : Pipeline World) (text : str) (w w' : World)
         (p : Prediction) (rest : list Prediction),
    strip text <> [] ->
    pipe (slice_to 512 text) w = (inr (p :: rest), w') ->
    exists out,
      outcome (analyze_sentiment (Some pipe) (TextInput.mk text) w) = inr out
      /\ SentimentOutput.confidence out = round (score p) 4
      /\ (finite (score p) = true ->
          has_decimal_digits (SentimentOutput.confidence out) 4)
      /\ (forall s m e, Prim2SF (score p) = S754_finite s m e ->
            exists n, nearest_decimal m e 4 n
                      /\ SentimentOutput.confidence out
                         = float_of_decimal s n 4).
Proof.
  intros World pipe text w w' p rest Hs Hp.
  rewrite (analyze_ok _ _ _ Hs Hp). eexists. split; [reflexivity|].
  cbn [outcome single_output SentimentOutput.confidence].
  split; [reflexivity|]. split.
  - apply round_has_decimal_digits.
  - intros s m e E. exists (scaled_digits m e 4). split.
    + apply scaled_digits_nearest.
    + unfold round. rewrite E. reflexivity.
Qed.

Lemma confidence_rounded_to_four_digits_witness :
  exists out,
    outcome (analyze_sentiment
               (Some (fixed_pipeline
                        {| label := py "POSITIVE"; score := 0.987654321 |}))
               (TextInput.mk (py "great")) tt) = inr out
    /\ SentimentOutput.confidence out = 0.9877
    /\ SentimentOutput.confidence out = float_of_decimal false 9877 4.
Proof.
  destruct (@confidence_rounded_to_four_digits unit
              (fixed_pipeline {| label := py "POSITIVE"; score := 0.987654321 |})
              (py "great") tt tt
              {| label := py "POSITIVE"; score := 0.987654321 |} [])
    as [out [H1 [H2 _]]].
  - vm_compute. discriminate.
  - reflexivity.
  - exists out. split; [exact H1|]. rewrite H2. split; vm_compute; reflexivity.
Defined.

(** C8. A successful single-text response carries a detail list of exactly
    one entry, the pipeline's raw label and its score rounded to 4 places; a
    record of a batch response has the keys [text], [sentiment] and
    [confidence] and nothing else, in particular no [all_scores]. *)
Theorem detail_list_single_only :
  forall (World : Type) (pipe : Pipeline World),
    (forall text w out,
        outcome (analyze_sentiment (Some pipe) (TextInput.mk text) w) = inr out ->
        exists p rest w',
          pipe (slice_to 512 text) w = (inr (p :: rest), w')
          /\ SentimentOutput.all_scores out
             = [[(py "label", VStr (label p));
                 (py "score", VFloat (round (score p) 4))]])
    /\ (forall texts w body,
           outcome (batch_analyze_sentiment (Some pipe)
                      (BatchTextInput.mk texts) w) = inr body ->
           exists results,
             body = [(py "results", results)]
             /\ Forall (fun d =>
                          keys d = [py "text"; py "sentiment"; py "confidence"]
                          /\ get d (py "all_scores") = None) results).
Proof.
  intros World pipe. split.
  - intros text w out H.
    apply analyze_inr_inv in H as [_ [p [rest [w' [Hp ->]]]]].
    exists p, rest, w'. split; [exact Hp | reflexivity].
  - intros texts w body H.
    apply batch_inr_inv in H as [results [-> [new_ok _]]].
    exists results. split; [reflexivity|].
    clear -new_ok. induction new_ok as [|text d ts ds [p ->] _ IH].
    + constructor.
    + constructor; [|exact IH]. split; reflexivity.
Qed.

Lemma detail_list_single_only_witness :
  (exists out,
     outcome (analyze_sentiment (Some mock_pipeline)
                (TextInput.mk (py "meh")) 0%nat) = inr out
     /\ SentimentOutput.sentiment out = py "NEUTRAL"
     /\ SentimentOutput.all_scores out
        = [[(py "label", VStr (py "NEGATIVE")); (py "score", VFloat 0.52)]])
  /\ (exists results,
        outcome (batch_analyze_sentiment (Some mock_pipeline)
                   (BatchTextInput.mk [py "meh"; py "fine"]) 0%nat)
        = inr [(py "results", results)]
        /\ List.map keys results
           = [[py "text"; py "sentiment"; py "confidence"];
              [py "text"; py "sentiment"; py "confidence"]]).
Proof.
  destruct (@detail_list_single_only nat mock_pipeline) as [Hsingle Hbatch].
  split.
  - destruct (Hsingle (py "meh") 0%nat
                (single_output (py "meh")
                   {| label := py "NEGATIVE"; score := 0.52 |}))
      as [p [rest [w' [Hp Hall]]]]; [reflexivity|].
    eexists. split; [reflexivity|]. split; [reflexivity|].
    injection Hp as <- _ _. exact Hall.
  - destruct (Hbatch [py "meh"; py "fine"] 0%nat
                [(py "results",
                  [batch_record (py "meh")
                     {| label := py "NEGATIVE"; score := 0.52 |};
                   batch_record (py "fine")
                     {| label := py "POSITIVE"; score := 0.95 |}])])
      as [results [Hbody _]]; [reflexivity|].
    exists results. injection Hbody as <-. split; reflexivity.
Defined.

(** C9. With a pipeline whose answer depends on the text only, a second
    call of the single-text service with the same text, made in the world
    the first call left, has the same outcome as the first: the same label
    and the same confidence when it succeeds. *)
Theorem same_text_same_answer :
  forall (World : Type) (pipe : Pipeline World) (input_data : TextInput.t)
         (w : World),
    deterministic pipe ->
    let r1 := analyze_sentiment (Some pipe) input_data w in
    let r2 := analyze_sentiment (Some pipe) input_data (world r1) in
    outcome r2 = outcome r1
    /\ (forall o1 o2, outcome r1 = inr o1 -> outcome r2 = inr o2 ->
          SentimentOutput.sentiment o2 = SentimentOutput.sentiment o1
          /\ SentimentOutput.confidence o2 = SentimentOutput.confidence o1).
Proof.
  intros World pipe input_data w Hdet r1 r2.
  assert (H : outcome r2 = outcome r1)
    by (apply analyze_outcome_world; exact Hdet).
  split; [exact H|].
  intros o1 o2 H1 H2. rewrite H1 in H. rewrite H2 in H.
  injection H as ->. split; reflexivity.
Qed.

Lemma same_text_same_answer_witness :
  let r1 := analyze_sentiment (Some mock_pipeline)
              (TextInput.mk (py "meh")) 0%nat in
  let r2 := analyze_sentiment (Some mock_pipeline)
              (TextInput.mk (py "meh")) (world r1) in
  world r1 = 1%nat /\ world r2 = 2%nat
  /\ outcome r2 = outcome r1
  /\ exists o1, outcome r1 = inr o1.
Proof.
  intros r1 r2.
  split; [reflexivity|]. split; [reflexivity|]. split.
  - exact (proj1 (@same_text_same_answer nat mock_pipeline
                    (TextInput.mk (py "meh")) 0%nat
                    (fun text w1 w2 => eq_refl))).
  - eexists. reflexivity.
Defined.

(* ================================================================= *)
(** ** The batch service *)

(** C2. If some call of the pipeline raised during a batch request, the
    request ends in an [InferenceError] carrying that exception's message:
    the outcome is the error alone, whatever was classified before. *)
Theorem batch_fails_as_a_whole :
  forall (World : Type) (sp : option (Pipeline World)) (texts : list str)
         (w : World) (arg msg : str),
    In (AdapterCall arg (Some msg))
       (events (batch_analyze_sentiment sp (BatchTextInput.mk texts) w)) ->
    outcome (batch_analyze_sentiment sp (BatchTextInput.mk texts) w)
    = inl (InferenceError msg).
Proof.
  intros World sp texts w arg msg.
  destruct sp as [pipe|]; [|intros []].
  destruct texts as [|t ts]; [rewrite batch_empty; intros []|].
  rewrite batch_run by discriminate. cbv zeta.
  destruct (outcome (for_each (slice_to 10 (t :: ts)) (batch_item pipe) [] w))
    as [e|results] eqn:E; cbn [events outcome]; intros Hin.
  - apply in_app_or in Hin as [Hin|[Hin|[]]]; [|discriminate].
    apply loop_raised in Hin. rewrite E in Hin. injection Hin as ->.
    reflexivity.
  - apply loop_raised in Hin. congruence.
Qed.

Lemma batch_fails_as_a_whole_witness :
  let r := batch_analyze_sentiment (Some mock_pipeline)
             (BatchTextInput.mk [py "fine"; py "boom"; py "later"]) 0%nat in
  events r
  = [AdapterCall (py "fine") None;
     AdapterCall (py "boom") (Some (py "model failure"));
     LogError (py "Error in batch analysis: model failure")]
  /\ outcome r = inl (InferenceError (py "model failure")).
Proof.
  intros r. split; [reflexivity|].
  apply (@batch_fails_as_a_whole nat (Some mock_pipeline)
           [py "fine"; py "boom"; py "later"] 0%nat (py "boom")
           (py "model failure")).
  right. left. reflexivity.
Defined.

(** C5. A batch request behaves exactly as the request made of its first
    ten items: later items cause no call, no record and no error. The
    pipeline is called at most ten times, only on (the first 512 characters
    of) non-blank items among the first ten, and a successful response has
    at most ten records. *)
Theorem batch_takes_first_ten :
  forall (World : Type) (sp : option (Pipeline World)) (texts : list str)
         (w : World),
    let r := batch_analyze_sentiment sp (BatchTextInput.mk texts) w in
    r = batch_analyze_sentiment sp (BatchTextInput.mk (slice_to 10 texts)) w
    /\ (exists k,
          adapter_args (events r)
          = firstn k (List.map (slice_to 512)
                        (filter (fun t => negb (whitespace_only t))
                                (slice_to 10 texts))))
    /\ (List.length (adapter_args (events r)) <= 10)%nat
    /\ (forall body, outcome r = inr body ->
          exists results,
            body = [(py "results", results)]
            /\ (List.length results <= 10)%nat).
Proof.
  intros World sp texts w r. subst r.
  assert (Hlen : (List.length (filter nonblank (slice_to 10 texts)) <= 10)%nat).
  { etransitivity; [apply filter_length_le|]. apply firstn_le_length. }
  assert (Hpre : exists k,
             adapter_args (events (batch_analyze_sentiment sp
                                     (BatchTextInput.mk texts) w))
             = firstn k (List.map (slice_to 512)
                           (filter nonblank (slice_to 10 texts)))).
  { destruct sp as [pipe|]; [apply batch_args_prefix|].
    exists 0%nat. reflexivity. }
  split; [apply batch_first_ten|]. split; [|split].
  - rewrite <- filter_nonblank. exact Hpre.
  - destruct Hpre as [k ->].
    etransitivity; [apply firstn_le_length_list|].
    rewrite length_map. exact Hlen.
  - intros body H. destruct sp as [pipe|]; [|discriminate].
    apply batch_inr_inv in H as [results [-> [HF _]]].
    exists results. split; [reflexivity|].
    rewrite <- (Forall2_length_eq HF). exact Hlen.
Qed.

Lemma batch_takes_first_ten_witness :
  let texts := repeat (py "fine") 10 ++ repeat (py "boom") 5 in
  let r := batch_analyze_sentiment (Some mock_pipeline)
             (BatchTextInput.mk texts) 0%nat in
  List.length texts = 15%nat
  /\ world r = 10%nat
  /\ r = batch_analyze_sentiment (Some mock_pipeline)
           (BatchTextInput.mk (repeat (py "fine") 10)) 0%nat
  /\ exists results, outcome r = inr [(py "results", results)]
                     /\ List.length results = 10%nat.
Proof.
  intros texts r.
  split; [reflexivity|]. split; [reflexivity|]. split.
  - exact (proj1 (@batch_takes_first_ten nat (Some mock_pipeline) texts 0%nat)).
  - eexists. split; reflexivity.
Defined.

(** C6. In a batch, an empty or whitespace-only item among those retained
    is passed over: no call, no record, no error. A successful response
    holds one record per remaining item, for these items in the order of
    the input, and the pipeline was called on them in that order; with a
    pipeline that always answers, a non-empty batch does succeed. *)
Theorem batch_skips_blank_keeps_order :
  forall (World : Type) (pipe : Pipeline World) (texts : list str) (w : World),
    let kept := filter (fun t => negb (whitespace_only t)) (slice_to 10 texts) in
    let r := batch_analyze_sentiment (Some pipe) (BatchTextInput.mk texts) w in
    (forall body, outcome r = inr body ->
       exists results,
         body = [(py "results", results)]
         /\ List.map (fun d => get d (py "text")) results
            = List.map (fun text => Some (VStr text)) kept
         /\ adapter_args (events r) = List.map (slice_to 512) kept)
    /\ (reliable pipe -> texts <> [] -> exists body, outcome r = inr body)
    /\ (forall text results w0,
          whitespace_only text = true ->
          batch_item pipe text results w0 = mkRun [] (inr results) w0).
Proof.
  intros World pipe texts w kept r. subst kept r.
  rewrite <- filter_nonblank. split; [|split].
  - intros body H.
    apply batch_inr_inv in H as [results [-> [HF Hargs]]].
    exists results. split; [reflexivity|]. split; [|exact Hargs].
    apply record_texts. exact HF.
  - apply batch_reliable.
  - intros text results w0 H. apply batch_item_blank.
    apply nonblank_false_iff. exact H.
Qed.

Lemma batch_skips_blank_keeps_order_witness :
  let r := batch_analyze_sentiment (Some mock_pipeline)
             (BatchTextInput.mk [py "hello"; []; py "   "; py "world"])
             0%nat in
  exists results,
    outcome r = inr [(py "results", results)]
    /\ List.length results = 2%nat
    /\ List.map (fun d => get d (py "text")) results
       = [Some (VStr (py "hello")); Some (VStr (py "world"))]
    /\ adapter_args (events r) = [py "hello"; py "world"].
Proof.
  intros r.
  destruct (@batch_skips_blank_keeps_order nat mock_pipeline
              [py "hello"; []; py "   "; py "world"] 0%nat)
    as [Hok _].
  destruct (Hok [(py "results",
                  [batch_record (py "hello")
                     {| label := py "POSITIVE"; score := 0.95 |};
                   batch_record (py "world")
                     {| label := py "POSITIVE"; score := 0.95 |}])])
    as [results [Hbody [Htexts Hargs]]]; [reflexivity|].
  exists results. injection Hbody as <-.
  split; [reflexivity|]. split; [reflexivity|]. split.
  - exact Htexts.
  - exact Hargs.
Defined.

(** C10. A batch whose list is non-empty but holds only empty or
    whitespace-only strings passes validation and is answered, the model
    being loaded, with an empty results list; it emits no event (no call of
    the pipeline) and leaves the world untouched. [EmptyBatch] is the
    outcome for the empty list, the model being loaded, and for no other
    request. *)
Theorem blank_batch_succeeds_empty :
  forall (World : Type) (sp : option (Pipeline World)) (texts : list str)
         (w : World),
    let r := batch_analyze_sentiment sp (BatchTextInput.mk texts) w in
    (texts <> [] -> forallb whitespace_only texts = true ->
     r = mkRun []
           (match sp with
            | Some _ => inr [(py "results", [])]
            | None => inl ModelUnavailable
            end) w)
    /\ (outcome r = inl EmptyBatch <-> texts = [] /\ sp <> None).
Proof.
  intros World sp texts w r. subst r. split.
  - intros Hne Hblank. destruct sp as [pipe|]; [|reflexivity].
    rewrite batch_run by exact Hne. cbv zeta.
    rewrite loop_all_blank by (apply forallb_slice_to; exact Hblank).
    reflexivity.
  - destruct sp as [pipe|].
    + split.
      * destruct texts as [|t ts]; [split; [reflexivity | discriminate]|].
        rewrite batch_run by discriminate. cbv zeta.
        destruct (outcome (for_each (slice_to 10 (t :: ts))
                             (batch_item pipe) [] w));
          cbn [outcome]; discriminate.
      * intros [-> _]. reflexivity.
    + split; [discriminate|]. intros [_ H]. exfalso. apply H. reflexivity.
Qed.

Lemma blank_batch_succeeds_empty_witness :
  batch_analyze_sentiment (Some mock_pipeline)
    (BatchTextInput.mk [[]; py "   "; [9%N; 10%N; 0x3000%N]]) 0%nat
  = mkRun [] (inr [(py "results", [])]) 0%nat.
Proof.
  apply (proj1 (@blank_batch_succeeds_empty nat (Some mock_pipeline)
                  [[]; py "   "; [9%N; 10%N; 0x3000%N]] 0%nat)).
  - discriminate.
  - reflexivity.
Defined.

(* ================================================================= *)
(** ** Further properties of the single-text handler *)

Lemma Forall_firstn {A} (P : A -> Prop) (k : nat) (l : list A) :
  Forall P l -> Forall P (firstn k l).
Proof.
  intros H. revert k. induction H as [|a l Ha _ IH]; intros [|k]; simpl;
    constructor; auto.
Qed.

Lemma slice_to_length {A} (n : nat) (l : list A) :
  (List.length (slice_to n l) <= n)%nat.
Proof. apply firstn_le_length. Qed.

Lemma whitespace_only_false_strip (s : str) :
  whitespace_only s = false -> strip s <> [].
Proof. intros H E. apply strip_nil_iff in E. congruence. Qed.

(** X1. Every failure of [/analyze] is one of three, each with its cause:
    503 when no model is loaded, 400 when the model is loaded and the text
    is blank (in both cases nothing happened), and 500 after exactly one
    call of the pipeline, which raised or returned no prediction, followed
    by exactly one log line carrying the message. *)
Theorem analyze_failures_classified :
  forall (World : Type) (sp : option (Pipeline World)) (text : str)
         (w : World) (e : HTTPException),
    let r := analyze_sentiment sp (TextInput.mk text) w in
    outcome r = inl e ->
    (sp = None /\ e = ModelUnavailable /\ events r = [] /\ world r = w)
    \/ (sp <> None /\ whitespace_only text = true /\ e = EmptyInput
        /\ events r = [] /\ world r = w)
    \/ (exists msg raised,
          e = InferenceError msg /\ whitespace_only text = false
          /\ events r
             = [AdapterCall (slice_to 512 text) raised;
                LogError (py "Error analyzing sentiment: " ++ msg)]
          /\ (raised = Some msg
              \/ (raised = None /\ msg = py "list index out of range"))).
Proof.
  intros World sp text w e r. subst r.
  destruct sp as [pipe|].
  2:{ simpl. intros H. injection H as <-. left. auto. }
  destruct (whitespace_only text) eqn:Hws.
  { rewrite (analyze_blank _ _ _ Hws). simpl. intros H. injection H as <-.
    right. left. repeat split; auto. discriminate. }
  pose proof (whitespace_only_false_strip _ Hws) as Hs.
  intros H. right. right.
  destruct (pipe (slice_to 512 text) w) as [[msg|[|p rest]] w'] eqn:Hp.
  - rewrite (analyze_raised _ _ _ Hs Hp) in *. simpl in H.
    injection H as <-. exists msg, (Some msg). auto.
  - rewrite (analyze_no_prediction _ _ _ Hs Hp) in *. simpl in H.
    injection H as <-. exists (py "list index out of range"), None.
    repeat (split; [reflexivity|]). right. split; reflexivity.
  - rewrite (analyze_ok _ _ _ Hs Hp) in H. discriminate.
Qed.

Lemma analyze_failures_classified_witness :
  let r := analyze_sentiment (Some mock_pipeline) (TextInput.mk (py "boom"))
             0%nat in
  exists msg raised,
    InferenceError (py "model failure") = InferenceError msg
    /\ whitespace_only (py "boom") = false
    /\ events r
       = [AdapterCall (slice_to 512 (py "boom")) raised;
          LogError (py "Error analyzing sentiment: " ++ msg)]
    /\ (raised = Some msg
        \/ (raised = None /\ msg = py "list index out of range")).
Proof.
  intros r.
  destruct (@analyze_failures_classified nat (Some mock_pipeline) (py "boom")
              0%nat (InferenceError (py "model failure")) eq_refl)
    as [[H _]|[[_ [H _]]|H]];
    [discriminate H | discriminate H | exact H].
Defined.

Lemma round_nonfinite (x : float) (ndigits : nat) :
  finite x = false -> round x ndigits = x.
Proof.
  unfold finite, round. destruct (Prim2SF x); congruence.
Qed.

(** X2. A score that is nan or an infinity is not rounded: the confidence
    reported is the score itself. Nan and [+inf] are not below the
    threshold, so the raw label is kept; [-inf] is, so the label is
    [NEUTRAL]. *)
Theorem nonfinite_score_passes_through :
  forall (World : Type) (pipe : Pipeline World) (text : str) (w w' : World)
         (rawLabel : str) (s : float) (rest : list Prediction),
    strip text <> [] ->
    pipe (slice_to 512 text) w
    = (inr ({| label := rawLabel; score := s |} :: rest), w') ->
    finite s = false ->
    exists out,
      outcome (analyze_sentiment (Some pipe) (TextInput.mk text) w) = inr out
      /\ SentimentOutput.confidence out = s
      /\ (Prim2SF s = S754_infinity true ->
          SentimentOutput.sentiment out = py "NEUTRAL")
      /\ (Prim2SF s <> S754_infinity true ->
          SentimentOutput.sentiment out = rawLabel).
Proof.
  intros World pipe text w w' rawLabel s rest Hs Hp Hfin.
  rewrite (analyze_ok _ _ _ Hs Hp). eexists. split; [reflexivity|].
  cbn [outcome single_output SentimentOutput.confidence
         SentimentOutput.sentiment label score].
  split; [apply round_nonfinite; exact Hfin|].
  rewrite ltb_spec. unfold finite in Hfin.
  destruct (Prim2SF s) as [sg|[|]| |sg m e]; try discriminate; split;
    intros H; try reflexivity; try discriminate H; exfalso; apply H;
    reflexivity.
Qed.

Lemma nonfinite_score_passes_through_witness :
  exists out,
    outcome (analyze_sentiment
               (Some (fixed_pipeline {| label := py "POSITIVE"; score := nan |}))
               (TextInput.mk (py "odd")) tt) = inr out
    /\ SentimentOutput.confidence out = nan
    /\ SentimentOutput.sentiment out = py "POSITIVE".
Proof.
  destruct (@nonfinite_score_passes_through unit
              (fixed_pipeline {| label := py "POSITIVE"; score := nan |})
              (py "odd") tt tt (py "POSITIVE") nan [])
    as [out [H1 [H2 [_ H4]]]].
  - vm_compute. discriminate.
  - reflexivity.
  - reflexivity.
  - exists out. split; [exact H1|]. split; [exact H2|].
    apply H4. vm_compute. discriminate.
Defined.

(** X3. Neither handler ever hands the pipeline more than 512 characters,
    whatever the request and whatever the pipeline does. *)
Theorem adapter_input_bounded :
  forall (World : Type) (sp : option (Pipeline World)) (text : str)
         (texts : list str) (w : World),
    Forall (fun arg => (List.length arg <= 512)%nat)
           (adapter_args (events (analyze_sentiment sp (TextInput.mk text) w)))
    /\ Forall (fun arg => (List.length arg <= 512)%nat)
              (adapter_args (events (batch_analyze_sentiment sp
                                       (BatchTextInput.mk texts) w))).
Proof.
  intros World sp text texts w. destruct sp as [pipe|].
  2:{ split; constructor. }
  split.
  - destruct (whitespace_only text) eqn:Hws.
    + rewrite (analyze_blank _ _ _ Hws). constructor.
    + rewrite (@analyze_calls_once _ pipe text w (whitespace_only_false_strip _ Hws)).
      constructor; [apply slice_to_length | constructor].
  - destruct (batch_args_prefix pipe texts w) as [k ->].
    apply Forall_firstn. apply Forall_forall. intros arg Hin.
    apply in_map_iff in Hin as [t [<- _]]. apply slice_to_length.
Qed.

(** X4. Validation looks at the whole text, the pipeline gets a slice: a
    text that opens with 512 or more whitespace characters and has
    something else after them passes validation, and the pipeline is called
    on 512 characters of whitespace. *)
Theorem blank_slice_reaches_pipeline :
  forall (World : Type) (pipe : Pipeline World) (pad rest : str) (w : World),
    whitespace_only pad = true ->
    (512 <= List.length pad)%nat ->
    whitespace_only rest = false ->
    let r := analyze_sentiment (Some pipe) (TextInput.mk (pad ++ rest)) w in
    adapter_args (events r) = [slice_to 512 pad]
    /\ whitespace_only (slice_to 512 pad) = true
    /\ List.length (slice_to 512 pad) = 512%nat.
Proof.
  intros World pipe pad rest w Hpad Hlen Hrest r. subst r.
  assert (Hws : whitespace_only (pad ++ rest) = false).
  { unfold whitespace_only in *. rewrite forallb_app, Hpad, Hrest. reflexivity. }
  rewrite (@analyze_calls_once _ pipe (pad ++ rest) w
             (whitespace_only_false_strip _ Hws)).
  assert (Hslice : slice_to 512 (pad ++ rest) = slice_to 512 pad).
  { unfold slice_to. rewrite firstn_app.
    replace (512 - List.length pad)%nat with 0%nat by lia.
    apply app_nil_r. }
  rewrite Hslice. split; [reflexivity|]. split.
  - apply forallb_slice_to. exact Hpad.
  - unfold slice_to. rewrite length_firstn. lia.
Qed.

Lemma blank_slice_reaches_pipeline_witness :
  let text := repeat 32%N 512 ++ py "x" in
  let r := analyze_sentiment (Some mock_pipeline) (TextInput.mk text) 0%nat in
  adapter_args (events r) = [repeat 32%N 512]
  /\ exists out, outcome r = inr out.
Proof.
  intros text r. split.
  - destruct (@blank_slice_reaches_pipeline nat mock_pipeline
                (repeat 32%N 512) (py "x") 0%nat) as [H _].
    + reflexivity.
    + vm_compute. apply le_n.
    + reflexivity.
    + exact H.
  - eexists. reflexivity.
Defined.

(* ================================================================= *)
(** ** Further properties of the batch handler *)

Section BatchTraces.

Variable World : Type.
Variable pipe : Pipeline World.

Ltac item_cases text acc w :=
  let Hnb := fresh "Hnb" in
  let Hp := fresh "Hp" in
  let msg := fresh "msg" in
  let p := fresh "p" in
  let rest := fresh "rest" in
  let w' := fresh "w'" in
  rewrite for_each_cons;
  destruct (nonblank text) eqn:Hnb;
  [ destruct (pipe (slice_to 512 text) w) as [[msg|[|p rest]] w'] eqn:Hp;
    [ rewrite (@batch_item_raised _ pipe text acc w msg w' Hnb Hp)
    | rewrite (@batch_item_no_prediction _ pipe text acc w w' Hnb Hp)
    | rewrite (@batch_item_ok _ pipe text acc w p rest w' Hnb Hp) ]
  | rewrite (@batch_item_blank _ pipe text acc w Hnb) ];
  cbn [outcome events world filter app].

(** The events of the loop: calls that returned and, when the loop is left
    by an exception, one last call, the one that raised or returned no
    prediction. *)
Lemma loop_trace xs : forall acc (w : World),
  let r := for_each xs (batch_item pipe) acc w in
  match outcome r with
  | inr _ => forallb successful_call (events r) = true
  | inl msg =>
      exists pre arg raised,
        events r = pre ++ [AdapterCall arg raised]
        /\ forallb successful_call pre = true
        /\ (raised = Some msg
            \/ (raised = None /\ msg = py "list index out of range"))
  end.
Proof.
  induction xs as [|text xs IH]; intros acc w.
  - reflexivity.
  - cbv zeta. item_cases text acc w.
    + exists [], (slice_to 512 text), (Some msg). auto.
    + exists [], (slice_to 512 text), None. auto.
    + specialize (IH (acc ++ [batch_record text p]) w'). cbv zeta in IH.
      destruct (outcome (for_each xs (batch_item pipe)
                           (acc ++ [batch_record text p]) w')) as [e|res].
      * destruct IH as [pre [arg [raised [-> [Hpre Hlast]]]]].
        exists (AdapterCall (slice_to 512 text) None :: pre), arg, raised.
        auto.
      * exact IH.
    + apply IH.
Qed.

(** Each record of a loop that ends normally is built from the first
    prediction the pipeline returned for its item, in some world. *)
Lemma loop_ok_origin xs : forall acc (w : World) res,
  outcome (for_each xs (batch_item pipe) acc w) = inr res ->
  exists new,
    res = acc ++ new
    /\ Forall2 (fun text d =>
                  exists p rest w1 w2,
                    pipe (slice_to 512 text) w1 = (inr (p :: rest), w2)
                    /\ d = batch_record text p)
               (filter nonblank xs) new.
Proof.
  induction xs as [|text xs IH]; intros acc w res.
  - simpl. intros H. injection H as <-. exists [].
    rewrite app_nil_r. split; [reflexivity | constructor].
  - item_cases text acc w; rewrite ?Hnb; intros H; try discriminate.
    + destruct (IH _ _ _ H) as [new [-> HF]].
      exists (batch_record text p :: new). split.
      * rewrite <- app_assoc. reflexivity.
      * constructor; [|exact HF]. exists p, rest, w, w'. auto.
    + apply IH with (w := w). exact H.
Qed.

End BatchTraces.

(** X5. A batch request that fails in inference stopped at the failing
    call: its events are calls that returned, then the one call that raised
    (or returned no prediction), then one log line with the message, and
    nothing after. A batch that succeeds emitted only calls that
    returned. *)
Theorem batch_stops_at_first_failure :
  forall (World : Type) (pipe : Pipeline World) (texts : list str) (w : World),
    texts <> [] ->
    let r := batch_analyze_sentiment (Some pipe) (BatchTextInput.mk texts) w in
    match outcome r with
    | inr _ => forallb successful_call (events r) = true
    | inl e =>
        exists pre arg raised msg,
          e = InferenceError msg
          /\ events r
             = pre ++ [AdapterCall arg raised;
                       LogError (py "Error in batch analysis: " ++ msg)]
          /\ forallb successful_call pre = true
          /\ (raised = Some msg
              \/ (raised = None /\ msg = py "list index out of range"))
    end.
Proof.
  intros World pipe texts w Hne r. subst r.
  rewrite batch_run by exact Hne. cbv zeta.
  pose proof (loop_trace pipe (slice_to 10 texts) [] w) as H. cbv zeta in H.
  destruct (outcome (for_each (slice_to 10 texts) (batch_item pipe) [] w))
    as [msg|res]; cbn [outcome events].
  - destruct H as [pre [arg [raised [-> [Hpre Hlast]]]]].
    exists pre, arg, raised, msg. rewrite <- app_assoc. auto.
  - exact H.
Qed.

Lemma batch_stops_at_first_failure_witness :
  let r := batch_analyze_sentiment (Some mock_pipeline)
             (BatchTextInput.mk [py "fine"; py "boom"; py "later"]) 0%nat in
  exists pre arg raised msg,
    outcome r = inl (InferenceError msg)
    /\ events r
       = pre ++ [AdapterCall arg raised;
                 LogError (py "Error in batch analysis: " ++ msg)]
    /\ forallb successful_call pre = true
    /\ world r = 2%nat.
Proof.
  intros r.
  pose proof (@batch_stops_at_first_failure nat mock_pipeline
                [py "fine"; py "boom"; py "later"] 0%nat
                ltac:(discriminate)) as H.
  cbv zeta in H. fold r in H.
  change (outcome r) with
    (@inl HTTPException (list (str * list dict))
       (InferenceError (py "model failure"))) in H.
  destruct H as [pre [arg [raised [msg [He [Hev [Hpre _]]]]]]].
  exists pre, arg, raised, msg. rewrite <- He.
  split; [reflexivity|]. split; [exact Hev|]. split; [exact Hpre|reflexivity].
Defined.

(** X6. With a pipeline whose answer depends on the text only, each record
    of a successful batch response is what the single-text service returns
    for that item (its text, label and confidence), in whatever world it is
    asked. *)
Theorem batch_records_match_single :
  forall (World : Type) (pipe : Pipeline World) (texts : list str) (w : World)
         (body : list (str * list dict)),
    deterministic pipe ->
    outcome (batch_analyze_sentiment (Some pipe) (BatchTextInput.mk texts) w)
    = inr body ->
    exists results,
      body = [(py "results", results)]
      /\ Forall2
           (fun text d =>
              forall w0, exists out,
                outcome (analyze_sentiment (Some pipe) (TextInput.mk text) w0)
                = inr out
                /\ d = [(py "text", VStr (SentimentOutput.text out));
                        (py "sentiment", VStr (SentimentOutput.sentiment out));
                        (py "confidence",
                         VFloat (SentimentOutput.confidence out))])
           (filter (fun t => negb (whitespace_only t)) (slice_to 10 texts))
           results.
Proof.
  intros World pipe texts w body Hdet.
  destruct texts as [|t ts].
  { rewrite batch_empty. discriminate. }
  rewrite batch_run by discriminate. cbv zeta.
  destruct (outcome (for_each (slice_to 10 (t :: ts)) (batch_item pipe) [] w))
    as [e|results] eqn:E; [discriminate|].
  cbn [outcome]. intros H. injection H as <-.
  destruct (loop_ok_origin _ _ _ _ E) as [new [-> HF]].
  exists new. split; [reflexivity|].
  rewrite <- filter_nonblank.
  assert (Hnb : Forall (fun text => nonblank text = true)
                       (filter nonblank (slice_to 10 (t :: ts)))).
  { apply Forall_forall. intros x Hx. apply filter_In in Hx. tauto. }
  revert Hnb. clear E.
  induction HF as [|text d xs ds [p [rest [w1 [w2 [Hp ->]]]]] _ IH];
    intros Hnb; [constructor|].
  inversion Hnb as [|? ? Htext Hxs]; subst.
  constructor; [|apply IH; exact Hxs].
  intros w0.
  pose proof (Hdet (slice_to 512 text) w0 w1) as Hsame.
  rewrite Hp in Hsame. cbn [fst] in Hsame.
  destruct (pipe (slice_to 512 text) w0) as [a0 w0'] eqn:Hp0.
  cbn [fst] in Hsame. subst a0.
  apply truthy_true_iff in Htext.
  rewrite (analyze_ok _ _ _ Htext Hp0). eexists. split; reflexivity.
Qed.

Lemma batch_records_match_single_witness :
  exists results,
    outcome (batch_analyze_sentiment (Some mock_pipeline)
               (BatchTextInput.mk [py "meh"; []; py "fine"]) 0%nat)
    = inr [(py "results", results)]
    /\ List.length results = 2%nat
    /\ Forall2
         (fun text d =>
            forall w0, exists out,
              outcome (analyze_sentiment (Some mock_pipeline)
                         (TextInput.mk text) w0) = inr out
              /\ d = [(py "text", VStr (SentimentOutput.text out));
                      (py "sentiment", VStr (SentimentOutput.sentiment out));
                      (py "confidence",
                       VFloat (SentimentOutput.confidence out))])
         [py "meh"; py "fine"] results.
Proof.
  destruct (@batch_records_match_single nat mock_pipeline
              [py "meh"; []; py "fine"] 0%nat
              [(py "results",
                [batch_record (py "meh")
                   {| label := py "NEGATIVE"; score := 0.52 |};
                 batch_record (py "fine")
                   {| label := py "POSITIVE"; score := 0.95 |}])]
              (fun text w1 w2 => eq_refl) eq_refl)
    as [results [Hbody HF]].
  exists results. injection Hbody as <-.
  split; [reflexivity|]. split; [reflexivity | exact HF].
Defined.

(* ================================================================= *)
(** ** The other functions of [app.py] *)

(** X7. [/health] always says [healthy]; its [model_loaded] flag is false
    exactly when [/analyze] answers [ModelUnavailable] to every request, and
    exactly when [/batch-analyze] does. *)
Theorem health_flag_tells_unavailability :
  forall (World : Type) (sp : option (Pipeline World)) (w : World),
    exists loaded : bool,
      health_check sp
      = [(py "status", inl (py "healthy")); (py "model_loaded", inr loaded)]
      /\ (loaded = false <->
          forall input_data,
            outcome (analyze_sentiment sp input_data w) = inl ModelUnavailable)
      /\ (loaded = false <->
          forall input_data,
            outcome (batch_analyze_sentiment sp input_data w)
            = inl ModelUnavailable).
Proof.
  intros World sp w. destruct sp as [pipe|].
  - exists true. split; [reflexivity|]. split; split; try discriminate.
    + intros H. specialize (H (TextInput.mk [])). discriminate H.
    + intros H. specialize (H (BatchTextInput.mk [])). discriminate H.
  - exists false. split; [reflexivity|]. split; split; reflexivity.
Qed.

Lemma health_flag_tells_unavailability_witness :
  health_check (Some mock_pipeline)
  = [(py "status", inl (py "healthy")); (py "model_loaded", inr true)]
  /\ health_check (@None (Pipeline nat))
     = [(py "status", inl (py "healthy")); (py "model_loaded", inr false)].
Proof.
  split.
  - destruct (@health_flag_tells_unavailability nat (Some mock_pipeline) 0%nat)
      as [loaded [H _]].
    reflexivity.
  - destruct (@health_flag_tells_unavailability nat None 0%nat)
      as [loaded [H _]].
    reflexivity.
Defined.

(** X8. With the model loaded, [gradio_sentiment] and [/analyze] treat a
    text alike: the same pipeline calls and the same world after; where the
    API answers, the interface shows that label and confidence; where the
    API refuses a blank text, the interface returns its [Error] entry; where
    the API answers 500 the interface lets the exception through, with the
    same message and without a log line. *)
Theorem gradio_sentiment_matches_api :
  forall (World : Type) (pipe : Pipeline World) (text : str) (w : World),
    let api := analyze_sentiment (Some pipe) (TextInput.mk text) w in
    let ui := gradio_sentiment (Some pipe) text w in
    world ui = world api
    /\ adapter_args (events ui) = adapter_args (events api)
    /\ forallb (fun ev => match ev with LogError _ => false | _ => true end)
               (events ui) = true
    /\ match outcome api with
       | inr out =>
           outcome ui
           = inr [(py "Sentiment", VStr (SentimentOutput.sentiment out));
                  (py "Confidence", VFloat (SentimentOutput.confidence out))]
       | inl e =>
           if (status_code e =? 400)%Z
           then outcome ui
                = inr [(py "Error", VStr (py "Text cannot be empty."))]
           else outcome ui = inl (detail e)
       end.
Proof.
  intros World pipe text w api ui. subst api ui.
  destruct (whitespace_only text) eqn:Hws.
  { rewrite (analyze_blank _ _ _ Hws).
    unfold gradio_sentiment. rewrite truthy_strip, Hws.
    repeat split. }
  pose proof (whitespace_only_false_strip _ Hws) as Hs.
  unfold gradio_sentiment. rewrite truthy_strip, Hws. cbn [negb].
  unfold bind, call.
  destruct (pipe (slice_to 512 text) w) as [[msg|[|p rest]] w'] eqn:Hp.
  - rewrite (analyze_raised _ _ _ Hs Hp). repeat split.
  - rewrite (analyze_no_prediction _ _ _ Hs Hp). repeat split.
  - rewrite (analyze_ok _ _ _ Hs Hp). repeat split.
Qed.

Lemma gradio_sentiment_matches_api_witness :
  outcome (gradio_sentiment (Some mock_pipeline) (py "meh") 0%nat)
  = inr [(py "Sentiment", VStr (py "NEUTRAL"));
         (py "Confidence", VFloat 0.52)]
  /\ outcome (gradio_sentiment (Some mock_pipeline) (py "boom") 0%nat)
     = inl (py "model failure").
Proof.
  split.
  - pose proof (@gradio_sentiment_matches_api nat mock_pipeline (py "meh")
                  0%nat) as H.
    cbv zeta in H. destruct H as [_ [_ [_ H]]]. exact H.
  - pose proof (@gradio_sentiment_matches_api nat mock_pipeline (py "boom")
                  0%nat) as H.
    cbv zeta in H. destruct H as [_ [_ [_ H]]]. exact H.
Defined.

(** X9. Without a model [gradio_sentiment] behaves unlike the API: it has
    no guard, so a blank text still gets the [Error] entry and any other
    text ends in the [TypeError] of calling [None], where [/analyze]
    answers [ModelUnavailable] to both. Nothing is called or logged. *)
Theorem gradio_sentiment_without_model :
  forall (World : Type) (text : str) (w : World),
    let ui := gradio_sentiment None text w in
    events ui = [] /\ world ui = w
    /\ outcome ui
       = (if whitespace_only text
          then inr [(py "Error", VStr (py "Text cannot be empty."))]
          else inl (py "'NoneType' object is not callable"))
    /\ outcome (analyze_sentiment None (TextInput.mk text) w)
       = inl ModelUnavailable.
Proof.
  intros World text w ui. subst ui.
  unfold gradio_sentiment. rewrite truthy_strip.
  destruct (whitespace_only text); repeat split.
Qed.

Lemma gradio_sentiment_without_model_witness :
  outcome (gradio_sentiment (@None (Pipeline nat)) (py "hello") 0%nat)
  = inl (py "'NoneType' object is not callable")
  /\ outcome (gradio_sentiment (@None (Pipeline nat)) (py "  ") 0%nat)
     = inr [(py "Error", VStr (py "Text cannot be empty."))].
Proof.
  split.
  - exact (proj1 (proj2 (proj2 (@gradio_sentiment_without_model nat
                                  (py "hello") 0%nat)))).
  - exact (proj1 (proj2 (proj2 (@gradio_sentiment_without_model nat
                                  (py "  ") 0%nat)))).
Defined.

(* ================================================================= *)
(** ** The interface of [gradio_app.py] *)

Section InterfaceFacts.

Variable World : Type.
Variable pipe : Pipeline World.
Variables format_2f str_float : float -> str.

Let run := GradioApp.analyze_sentiment pipe format_2f str_float.

Lemma interface_blank text (w : World) :
  whitespace_only text = true ->
  run text w
  = ([],
     ([0x26A0; 0xFE0F]%N ++ py " NEUTRAL", VFloat 0.0,
      py "<p style='color: #666;'>Please enter some text to analyze.</p>"),
     w).
Proof.
  intros H. unfold run, GradioApp.analyze_sentiment.
  rewrite truthy_strip, H. reflexivity.
Qed.

Lemma interface_failed text (w w' : World) raised msg :
  whitespace_only text = false ->
  (pipe (slice_to 512 text) w = (inl msg, w') /\ raised = Some msg)
  \/ (pipe (slice_to 512 text) w = (inr [], w') /\ raised = None
      /\ msg = py "list index out of range") ->
  run text w
  = ([GradioApp.Sleep 0.3;
      GradioApp.Adapter (AdapterCall (slice_to 512 text) raised)],
     ([0x274C%N] ++ py " ERROR", VStr (py "0.00%"),
      py "<p style='color: red;'>Error: " ++ msg ++ py "</p>"),
     w').
Proof.
  intros H Hp. unfold run, GradioApp.analyze_sentiment.
  rewrite truthy_strip, H. cbn [negb]. unfold bind, call.
  destruct Hp as [[Hp ->]|[Hp [-> ->]]]; rewrite Hp; reflexivity.
Qed.

Lemma interface_answered text (w w' : World) p rest :
  whitespace_only text = false ->
  pipe (slice_to 512 text) w = (inr (p :: rest), w') ->
  exists sentiment emoji color,
    run text w
    = ([GradioApp.Sleep 0.3;
        GradioApp.Adapter (AdapterCall (slice_to 512 text) None)],
       (emoji ++ py " " ++ sentiment,
        VStr (format_2f (score p * 100) ++ py "%"),
        GradioApp.html_output format_2f str_float color emoji sentiment
          (score p * 100) text),
       w')
    /\ (sentiment, emoji, color)
       = (if score p <? 0.6
          then (py "NEUTRAL", [0x1F610%N], py "#FFA500")
          else if str_eq_dec (label p) (py "POSITIVE")
               then (label p, [0x1F60A%N], py "#4CAF50")
               else (py "NEGATIVE", [0x1F61E%N], py "#F44336")).
Proof.
  intros H Hp. unfold run, GradioApp.analyze_sentiment.
  rewrite truthy_strip, H. cbn [negb]. unfold bind, call. rewrite Hp.
  cbn [outcome events world getitem0 ret app List.map].
  destruct (score p <? 0.6).
  - do 3 eexists. split; reflexivity.
  - destruct (str_eq_dec (label p) (py "POSITIVE")).
    + do 3 eexists. split; reflexivity.
    + do 3 eexists. split; reflexivity.
Qed.

End InterfaceFacts.

(** X10. Whatever the pipeline answers, the label [gradio_app.py] shows is
    one of five fixed texts, so a raw label other than [POSITIVE] never
    reaches the screen. It is the warning text exactly for a blank input
    (then nothing is called, nothing sleeps and the confidence shown is the
    number 0.0), and the error text exactly when the pipeline, called once
    after the pause, raised or returned no prediction. *)
Theorem interface_label_classified :
  forall (World : Type) (pipe : Pipeline World)
         (format_2f str_float : float -> str) (text : str) (w : World),
    let res := GradioApp.analyze_sentiment pipe format_2f str_float text w in
    In (GradioApp.shown_label res)
       [[0x26A0; 0xFE0F]%N ++ py " NEUTRAL";
        [0x1F610%N] ++ py " NEUTRAL";
        [0x1F60A%N] ++ py " POSITIVE";
        [0x1F61E%N] ++ py " NEGATIVE";
        [0x274C%N] ++ py " ERROR"]
    /\ (GradioApp.shown_label res = [0x26A0; 0xFE0F]%N ++ py " NEUTRAL"
        <-> whitespace_only text = true)
    /\ (whitespace_only text = true ->
        GradioApp.effects_of res = [] /\ GradioApp.world_after res = w
        /\ GradioApp.shown_confidence res = VFloat 0.0)
    /\ (whitespace_only text = false ->
        (exists raised,
            GradioApp.effects_of res
            = [GradioApp.Sleep 0.3;
               GradioApp.Adapter (AdapterCall (slice_to 512 text) raised)])
        /\ (GradioApp.shown_label res = [0x274C%N] ++ py " ERROR"
            <-> forall p rest w',
                pipe (slice_to 512 text) w <> (inr (p :: rest), w'))).
Proof.
  intros World pipe format_2f str_float text w res. subst res.
  destruct (whitespace_only text) eqn:Hws.
  { rewrite (interface_blank pipe format_2f str_float _ w Hws).
    split; [left; reflexivity|]. split; [tauto|]. split; [auto|].
    discriminate. }
  destruct (pipe (slice_to 512 text) w) as [[msg|[|p rest]] w'] eqn:Hp.
  - rewrite (@interface_failed _ pipe format_2f str_float text w w'
               (Some msg) msg Hws (or_introl (conj Hp eq_refl))).
    split; [do 4 right; left; reflexivity|].
    split; [split; [intros H; vm_compute in H|]; discriminate|].
    split; [discriminate|]. intros _. split; [eexists; reflexivity|].
    split; [discriminate | reflexivity].
  - rewrite (@interface_failed _ pipe format_2f str_float text w w'
               None (py "list index out of range") Hws
               (or_intror (conj Hp (conj eq_refl eq_refl)))).
    split; [do 4 right; left; reflexivity|].
    split; [split; [intros H; vm_compute in H|]; discriminate|].
    split; [discriminate|]. intros _. split; [eexists; reflexivity|].
    split; [discriminate | reflexivity].
  - destruct (interface_answered pipe format_2f str_float text w Hws Hp)
      as [sentiment [emoji [color [-> Hsel]]]].
    unfold GradioApp.shown_label, GradioApp.effects_of. cbn [fst snd].
    assert (Hthree :
              emoji ++ py " " ++ sentiment = [0x1F610%N] ++ py " NEUTRAL"
              \/ emoji ++ py " " ++ sentiment = [0x1F60A%N] ++ py " POSITIVE"
              \/ emoji ++ py " " ++ sentiment = [0x1F61E%N] ++ py " NEGATIVE").
    { destruct (score p <? 0.6).
      - injection Hsel as -> -> _. auto.
      - destruct (str_eq_dec (label p) (py "POSITIVE")) as [E|_].
        + injection Hsel as -> -> _. rewrite E. auto.
        + injection Hsel as -> -> _. auto. }
    split; [destruct Hthree as [ -> | [ -> | -> ] ]; simpl; auto|].
    split.
    { split; [|discriminate].
      destruct Hthree as [ -> | [ -> | -> ] ]; intros H; vm_compute in H;
        discriminate H. }
    split; [discriminate|]. intros _. split; [eexists; reflexivity|].
    split.
    + destruct Hthree as [ -> | [ -> | -> ] ]; intros H; vm_compute in H;
        discriminate H.
    + intros H. exfalso. exact (H p rest w' eq_refl).
Qed.

Lemma interface_label_classified_witness :
  let res := GradioApp.analyze_sentiment
               (fixed_pipeline {| label := py "LABEL_7"; score := 0.99 |})
               (fun _ => py "99.00") (fun _ => py "99.0") (py "odd") tt in
  GradioApp.shown_label res = [0x1F61E%N] ++ py " NEGATIVE"
  /\ In (GradioApp.shown_label res)
        [[0x26A0; 0xFE0F]%N ++ py " NEUTRAL";
         [0x1F610%N] ++ py " NEUTRAL";
         [0x1F60A%N] ++ py " POSITIVE";
         [0x1F61E%N] ++ py " NEGATIVE";
         [0x274C%N] ++ py " ERROR"].
Proof.
  intros res. split; [reflexivity|].
  exact (proj1 (@interface_label_classified unit
                  (fixed_pipeline {| label := py "LABEL_7"; score := 0.99 |})
                  (fun _ => py "99.00") (fun _ => py "99.0") (py "odd") tt)).
Defined.

(** X11. For a pipeline label that is [POSITIVE] or [NEGATIVE], the
    interface of [gradio_app.py] and [/analyze] agree: the interface shows
    the API's sentiment behind its face, after the same single call and
    leaving the same world. For any other raw label with a score not below
    the threshold they differ: the API returns the raw label, the interface
    shows [NEGATIVE]. *)
Theorem interface_agrees_with_api :
  forall (World : Type) (pipe : Pipeline World)
         (format_2f str_float : float -> str) (text : str) (w w' : World)
         (p : Prediction) (rest : list Prediction),
    strip text <> [] ->
    pipe (slice_to 512 text) w = (inr (p :: rest), w') ->
    let res := GradioApp.analyze_sentiment pipe format_2f str_float text w in
    exists out,
      outcome (analyze_sentiment (Some pipe) (TextInput.mk text) w) = inr out
      /\ GradioApp.world_after res
         = world (analyze_sentiment (Some pipe) (TextInput.mk text) w)
      /\ GradioApp.effects_of res
         = GradioApp.Sleep 0.3
           :: List.map GradioApp.Adapter
                (events (analyze_sentiment (Some pipe) (TextInput.mk text) w))
      /\ (label p = py "POSITIVE" \/ label p = py "NEGATIVE" ->
          GradioApp.shown_label res
          = face (SentimentOutput.sentiment out) ++ py " "
            ++ SentimentOutput.sentiment out)
      /\ ((score p <? 0.6) = false -> label p <> py "POSITIVE" ->
          SentimentOutput.sentiment out = label p
          /\ GradioApp.shown_label res = [0x1F61E%N] ++ py " NEGATIVE").
Proof.
  intros World pipe format_2f str_float text w w' p rest Hs Hp res. subst res.
  assert (Hws : whitespace_only text = false).
  { destruct (whitespace_only text) eqn:E; [|reflexivity].
    apply strip_nil_iff in E. contradiction. }
  rewrite (analyze_ok _ _ _ Hs Hp).
  destruct (interface_answered pipe format_2f str_float text w Hws Hp)
    as [sentiment [emoji [color [-> Hsel]]]].
  eexists. split; [reflexivity|].
  unfold GradioApp.shown_label, GradioApp.effects_of, GradioApp.world_after.
  cbn [fst snd outcome events world single_output SentimentOutput.sentiment
         List.map].
  split; [reflexivity|]. split; [reflexivity|]. split.
  - intros Hlab. destruct (score p <? 0.6).
    + injection Hsel as -> -> _. reflexivity.
    + destruct (str_eq_dec (label p) (py "POSITIVE")) as [E|E].
      * injection Hsel as -> -> _. rewrite E. reflexivity.
      * injection Hsel as -> -> _.
        destruct Hlab as [Hlab|Hlab]; [contradiction|].
        rewrite Hlab. reflexivity.
  - intros Hge Hnot. rewrite Hge in *.
    destruct (str_eq_dec (label p) (py "POSITIVE")) as [E|_];
      [contradiction|].
    injection Hsel as -> -> _. split; reflexivity.
Qed.

Lemma interface_agrees_with_api_witness :
  let res := GradioApp.analyze_sentiment mock_pipeline
               (fun _ => py "52.00") (fun _ => py "52.0") (py "meh") 0%nat in
  GradioApp.shown_label res = [0x1F610%N] ++ py " NEUTRAL"
  /\ GradioApp.world_after res = 1%nat.
Proof.
  intros res.
  destruct (@interface_agrees_with_api nat mock_pipeline
              (fun _ => py "52.00") (fun _ => py "52.0") (py "meh")
              0%nat 1%nat {| label := py "NEGATIVE"; score := 0.52 |} [])
    as [out [Hout [Hw [_ [Hlab _]]]]].
  - vm_compute. discriminate.
  - reflexivity.
  - split; [|reflexivity].
    fold res in Hlab. rewrite (Hlab (or_intror eq_refl)).
    injection Hout as <-. reflexivity.
Defined.
